(** * Workbook migration pipeline of [deploy_workbook.py]

    A shallow embedding of the migration workflow
    ([process_workbook_migration] and the four functions it calls) and the
    properties of it that the specification states.

    Layout:
    - [PyStr]    the [str] methods the script uses
                 ([startswith], [endswith], [lower], [in], [replace]);
    - [Tree]     the extraction directory as a tree, zip archives as entry
                 lists, [extractall], [os.listdir], [os.walk];
    - [Script]   the world the script runs in (file table, clock, remote
                 servers, trace), a state-and-exception monad, and the
                 functions of the script written in it;
    - the theorems. *)

From stdpp Require Import gmap strings list.
From Stdlib Require Import Ascii.
From Stdlib Require String.

Set Default Proof Using "Type".

(* ================================================================== *)
(** * Python strings *)
(* ================================================================== *)

(** A Python [str] is modelled by a Rocq [string]; its characters are the
    code points U+0000 to U+00FF. *)

Module PyStr.

(** [s[n:]] *)
Fixpoint drop (n : nat) (s : string) : string :=
  match n, s with
  | 0, _ => s
  | S _, "" => ""
  | S k, String _ s' => drop k s'
  end.

(** [s.startswith(p)] *)
Fixpoint startswith (s p : string) {struct p} : bool :=
  match p, s with
  | "", _ => true
  | String _ _, "" => false
  | String a p', String b s' => if Ascii.eqb a b then startswith s' p' else false
  end.

(** [s.endswith(suf)]: the last [len(suf)] characters of [s] are [suf]. *)
Definition endswith (s suf : string) : bool :=
  Nat.leb (String.length suf) (String.length s)
  && String.eqb (drop (String.length s - String.length suf) s) suf.

(** [c.lower()] on U+0000..U+00FF: the capitals A..Z and the Latin-1
    capitals U+00C0..U+00DE (the multiplication sign U+00D7 apart) have
    their small letter 32 places further. *)
Definition lower_char (c : ascii) : ascii :=
  let n := nat_of_ascii c in
  if (Nat.leb 65 n && Nat.leb n 90)
     || (Nat.leb 192 n && Nat.leb n 222 && negb (Nat.eqb n 215))
  then ascii_of_nat (n + 32) else c.

(** [s.lower()] *)
Fixpoint lower (s : string) : string :=
  match s with
  | "" => ""
  | String c s' => String (lower_char c) (lower s')
  end.

(** [find in s] *)
Fixpoint contains (s find : string) : bool :=
  startswith s find ||
  match s with
  | "" => false
  | String _ s' => contains s' find
  end.

(** [s.find(sub)]: the offset of the leftmost occurrence, if any. *)
Fixpoint find_index (s sub : string) : option nat :=
  if startswith s sub then Some 0
  else match s with
       | "" => None
       | String _ s' => S <$> find_index s' sub
       end.

(** [s.replace(find, repl)] for a non-empty [find]: scan from the left;
    where [find] starts, emit [repl] and jump over the match ([skip]
    counts the characters of the match still to be jumped over),
    elsewhere copy the character. *)
Fixpoint replace_scan (find repl : string) (skip : nat) (s : string) : string :=
  match s with
  | "" => ""
  | String c s' =>
      match skip with
      | S k => replace_scan find repl k s'
      | 0 =>
          if startswith s find
          then repl +:+ replace_scan find repl (String.length find - 1) s'
          else String c (replace_scan find repl 0 s')
      end
  end.

(** [s.replace("", repl)]: [repl] before every character and at the end. *)
Fixpoint replace_empty (repl : string) (s : string) : string :=
  match s with
  | "" => repl
  | String c s' => repl +:+ String c (replace_empty repl s')
  end.

(** [s.replace(find, repl)] *)
Definition replace (s find repl : string) : string :=
  match find with
  | "" => replace_empty repl s
  | String _ _ => replace_scan find repl 0 s
  end.

Definition CR : ascii := "013"%char.
Definition LF : ascii := "010"%char.

(** Text read from a file opened with [open(path, 'r', encoding=...)]
    (no [newline] argument): the line ends "\r\n" and "\r" of the file
    arrive as "\n". *)
Fixpoint universal_newlines (s : string) : string :=
  match s with
  | "" => ""
  | String c s' =>
      if Ascii.eqb c CR then
        String LF
          match s' with
          | "" => ""
          | String c' s'' =>
              if Ascii.eqb c' LF then universal_newlines s''
              else universal_newlines s'
          end
      else String c (universal_newlines s')
  end.

(** Text written to a file opened with [open(path, 'w', encoding=...)]
    (no [newline] argument): every "\n" goes to the file as
    [os.linesep]. *)
Fixpoint translate_newlines (linesep : string) (s : string) : string :=
  match s with
  | "" => ""
  | String c s' =>
      if Ascii.eqb c LF then linesep +:+ translate_newlines linesep s'
      else String c (translate_newlines linesep s')
  end.

(** ** What the specification calls a literal replacement

    The second definition of replacement, written from the words of the
    specification ("every occurrence of find replaced by replace, literal,
    non-overlapping, left to right"), to be compared with [replace]. *)

(** [find] occurs in [s] at offset [i]. *)
Definition occurs_at (find s : string) (i : nat) : Prop :=
  ∃ pre post, s = pre +:+ find +:+ post ∧ String.length pre = i.

(** [out] is [s] with its occurrences of [find] replaced: either [find]
    does not occur in [s] and [out] is [s], or [s] splits at the leftmost
    occurrence of [find], which becomes [repl], and the replacement goes
    on after that occurrence (so matches never overlap, and the text
    inserted is not scanned again). *)
Inductive literal_replace (find repl : string) : string → string → Prop :=
| lr_none s :
    (∀ i, ¬ occurs_at find s i) →
    literal_replace find repl s s
| lr_leftmost pre post out :
    (∀ i, i < String.length pre → ¬ occurs_at find (pre +:+ find +:+ post) i) →
    literal_replace find repl post out →
    literal_replace find repl (pre +:+ find +:+ post) (pre +:+ repl +:+ out).

End PyStr.

(* ================================================================== *)
(** * Directory trees and zip archives *)
(* ================================================================== *)

Module Tree.

(** The data of a regular file: text (bytes that are the UTF-8 encoding
    of the string, line ends as they are in the file), or bytes that do
    not decode as UTF-8. *)
Inductive content :=
| Text (s : string)
| Binary (b : list Byte.byte).

(** A directory lists its entries by name, in the order in which
    [os.listdir] and [os.walk] report them. *)
#[warnings="-register-all"] Inductive node :=
| File (c : content)
| Dir (entries : list (string * node)).

Abbreviation tree := (list (string * node)).

(** A path below a directory, component by component (the entry name of
    an archive member, the [arcname] of [os.path.relpath]). *)
Abbreviation path := (list string).

(** A zip archive: its file members, in order. *)
Abbreviation archive := (list (path * content)).

Fixpoint lookup_name (n : string) (t : tree) : option node :=
  match t with
  | [] => None
  | (m, v) :: t' => if String.eqb m n then Some v else lookup_name n t'
  end.

(** Bind [n] to [v]: in place when the directory has the name, as a new
    last entry otherwise. *)
Fixpoint set_name (n : string) (v : node) (t : tree) : tree :=
  match t with
  | [] => [(n, v)]
  | (m, u) :: t' =>
      if String.eqb m n then (n, v) :: t' else (m, u) :: set_name n v t'
  end.

(** [ZipFile.extract] of one member: make the directories of the path
    that are missing, then create or overwrite the file.  [None] when a
    component of the path is a regular file, when the target is a
    directory, or when the member has no name. *)
Fixpoint write_file (p : path) (c : content) (t : tree) : option tree :=
  match p with
  | [] => None
  | n :: p' =>
      match p' with
      | [] =>
          match lookup_name n t with
          | Some (Dir _) => None
          | _ => Some (set_name n (File c) t)
          end
      | _ :: _ =>
          match lookup_name n t with
          | Some (File _) => None
          | Some (Dir sub) =>
              sub' ← write_file p' c sub; Some (set_name n (Dir sub') t)
          | None =>
              sub' ← write_file p' c []; Some (set_name n (Dir sub') t)
          end
      end
  end.

(** [ZipFile.extractall]: the members in order; the members extracted
    before one that fails stay on disk. *)
Fixpoint extractall (a : archive) (t : tree) : tree * bool :=
  match a with
  | [] => (t, true)
  | (p, c) :: a' =>
      match write_file p c t with
      | Some t' => extractall a' t'
      | None => (t, false)
      end
  end.

(** [os.listdir]: the names of files and directories alike. *)
Definition listdir (t : tree) : list string := t.*1.

(** The loop [for root, _, files in os.walk(top): for file in files:]
    with [arcname = os.path.relpath(os.path.join(root, file), top)]:
    the files of a directory first, then its subdirectories in turn. *)
Fixpoint walk (rel : path) (n : node) : archive :=
  match n with
  | File _ => []
  | Dir es =>
      (es ≫= λ e, match e.2 with
                  | File c => [(rel ++ [e.1], c)]
                  | Dir _ => []
                  end)
      ++ (es ≫= λ e, walk (rel ++ [e.1]) e.2)
  end.

(** The node at a path. *)
Fixpoint get (p : path) (t : tree) : option node :=
  match p with
  | [] => None
  | n :: p' =>
      match p' with
      | [] => lookup_name n t
      | _ :: _ =>
          match lookup_name n t with
          | Some (Dir sub) => get p' sub
          | _ => None
          end
      end
  end.

(** A directory tree as a file system has it: no name twice in a
    directory. *)
#[warnings="-register-all"] Inductive wf : node → Prop :=
| wf_File c : wf (File c)
| wf_Dir es :
    NoDup es.*1 → Forall (λ e, wf e.2) es → wf (Dir es).

(** No directory below the top is empty (what extraction into an empty
    directory produces: a directory is made for a file to go in). *)
#[warnings="-register-all"] Inductive populated : node → Prop :=
| pop_File c : populated (File c)
| pop_Dir es :
    es ≠ [] → Forall (λ e, populated e.2) es → populated (Dir es).

(** [p] is the path of a regular file below the directory. *)
Definition is_file_path (p : path) (t : tree) : Prop :=
  ∃ c, get p t = Some (File c).

(** [q] lies strictly below [p]. *)
Definition below (p q : path) : Prop := ∃ r, r ≠ [] ∧ q = p ++ r.

(** Neither path lies below the other. *)
Definition apart (p q : path) : Prop := ¬ below p q ∧ ¬ below q p.

End Tree.

(* ================================================================== *)
(** * The script *)
(* ================================================================== *)

Module Script.
Import PyStr Tree.

(** ** The world the script runs in *)

Inductive platform := Windows | Posix.

Definition os_linesep (pl : platform) : string :=
  match pl with
  | Windows => String CR (String LF "")
  | Posix => String LF ""
  end.

Definition os_sep (pl : platform) : string :=
  match pl with Windows => "\" | Posix => "/" end.

(** [os.path.join(a, b)] for a directory [a] that does not end in a
    separator and a relative [b]. *)
Definition os_path_join (pl : platform) (a b : string) : string :=
  a +:+ os_sep pl +:+ b.

(** What a path of the local disk holds.  A directory carries what is
    below it. *)
Inductive fobj :=
| FZip (a : archive)      (* a regular file that is a zip archive *)
| FData (c : content)     (* any other regular file *)
| FDir (t : tree).

Inductive exn :=
| FileNotFoundError
| FileExistsError
| IsADirectoryError
| NotADirectoryError
| BadZipFile
| UnicodeDecodeError
| ServerError.             (* what a call of the server client raises *)

(** [TSC.ProjectItem] and [TSC.WorkbookItem], as far as the script reads
    them. *)
Record project := { proj_name : string; proj_id : string }.
Record workbook := { wb_name : string; wb_id : string }.

(** What [server.workbooks.download(id, filepath=base)] does. *)
Inductive download_outcome :=
| DlRaises
| DlArrives (delay : nat) (f : fobj)
    (* returns; [base + ".twbx"] holds [f] from [delay] seconds on *)
| DlElsewhere.
    (* returns; nothing is ever written at [base + ".twbx"] *)

(** The behaviour of one remote server, call by call.  [None] and [false]
    stand for a call that raises. *)
Record remote := {
  r_sign_in : bool;
  r_sign_out : bool;
  r_projects_get : option (list project);
  (* filtered by workbook name and project name *)
  r_workbooks_get : string → string → option (list workbook);
  r_download : string → download_outcome;
  (* by project id and workbook name *)
  r_publish : string → string → option workbook;
}.

(** One constructor for each [log_message] call of the five functions. *)
Inductive message :=
| MCreatedLocalDir
| MEnvNotFound (env : string)
| MAuthenticated (env url : string)
| MFoundProject (name id : string)
| MStarting
| MHaltDownload
| MHaltModify
| MCleaningUp
| MCleanupComplete
| MCleanupWarning (e : exn)
| MFinished
| MAttemptDownload (wb proj : string)
| MSourceProjectNotFound (proj : string)
| MWorkbookNotFound (wb proj : string)
| MDownloading (id base : string)
| MDownloadPresent (waited : nat)
| MDownloadTimedOut (expected : string) (seconds : nat)
| MDownloadException (e : exn)
| MExtracting (twbx folder : string)
| MExtractFailed (e : exn)
| MNoTwbFile
| MFoundTwbFile (folder file : string)
| MFindStringAbsent
| MStringNotFound (find : string)
| MReplacementComplete
| MReadWriteFailed (e : exn)
| MRepackaging (modified : string)
| MRepackaged
| MRepackFailed (e : exn)
| MAttemptPublish (wb proj : string)
| MDestProjectNotFound (proj : string)
| MPublishing (twbx : string)
| MPublished (name id : string)
| MPublishFailed (e : exn).

(** What a run leaves behind, in order. *)
Inductive event :=
| Log (m : message)
| SignedIn (url : string)          (* [sign_in] returned *)
| SignOut (url : string)           (* [sign_out] was called *)
| PathExists (p : string) (b : bool)
| Sleep (seconds : nat).

Record world := {
  w_servers : string → remote;     (* by server URL *)
  w_fs : gmap string fobj;
  w_clock : nat;                   (* seconds *)
  w_arrivals : list (nat * string * fobj);  (* downloads under way *)
  w_trace : list event;
}.

Definition with_fs (fs : gmap string fobj) (w : world) : world :=
  {| w_servers := w_servers w; w_fs := fs;
     w_clock := w_clock w; w_arrivals := w_arrivals w;
     w_trace := w_trace w |}.

(** [w] with another disk and more events. *)
Definition after (w : world) (fs : gmap string fobj) (tr : list event) : world :=
  {| w_servers := w_servers w; w_fs := fs;
     w_clock := w_clock w; w_arrivals := w_arrivals w;
     w_trace := w_trace w ++ tr |}.

Definition emit (e : event) (w : world) : world :=
  {| w_servers := w_servers w; w_fs := w_fs w;
     w_clock := w_clock w; w_arrivals := w_arrivals w;
     w_trace := w_trace w ++ [e] |}.

(** The arrivals that are due go to disk. *)
Fixpoint land (now : nat) (arrivals : list (nat * string * fobj))
    (fs : gmap string fobj) : gmap string fobj * list (nat * string * fobj) :=
  match arrivals with
  | [] => (fs, [])
  | (due, p, f) :: rest =>
      if Nat.leb due now
      then land now rest (<[p := f]> fs)
      else let '(fs', rest') := land now rest fs in (fs', (due, p, f) :: rest')
  end.

Definition settle (clock : nat) (arrivals : list (nat * string * fobj))
    (w : world) : world :=
  let '(fs, rest) := land clock arrivals (w_fs w) in
  {| w_servers := w_servers w; w_fs := fs;
     w_clock := clock; w_arrivals := rest; w_trace := w_trace w |}.

(** ** Computations: state, and exceptions that keep the state *)

Inductive result (A : Type) :=
| Ok (a : A)
| Raised (e : exn).
Arguments Ok {A} a.
Arguments Raised {A} e.

Definition M (A : Type) : Type := world → result A * world.

#[export] Instance M_ret : MRet M := λ A a w, (Ok a, w).
#[export] Instance M_bind : MBind M := λ A B f m w,
  match m w with
  | (Ok a, w') => f a w'
  | (Raised e, w') => (Raised e, w')
  end.
#[export] Instance M_throw : MThrow exn M := λ A e w, (Raised e, w).

(** [try: body] with the exception, if any, handed to the caller. *)
Definition attempt {A} (body : M A) : M (result A) := λ w,
  let '(r, w') := body w in (Ok r, w').

(** [for x in xs: body], where [body] answers [Some r] for [return r]. *)
Fixpoint for_each {X R} (xs : list X) (body : X → M (option R)) : M (option R) :=
  match xs with
  | [] => mret None
  | x :: xs' =>
      r ← body x;
      match r with
      | Some v => mret (Some v)
      | None => for_each xs' body
      end
  end.

Definition get_world : M world := λ w, (Ok w, w).
Definition put_fs (p : string) (f : fobj) : M unit := λ w,
  (Ok (), with_fs (<[p := f]> (w_fs w)) w).
Definition del_fs (p : string) : M unit := λ w,
  (Ok (), with_fs (delete p (w_fs w)) w).
Definition record (e : event) : M unit := λ w, (Ok (), emit e w).
(** The clock moves on, and what is due by then lands on disk. *)
Definition tick (seconds : nat) : M unit := λ w,
  (Ok (), settle (w_clock w + seconds) (w_arrivals w) w).
(** [f] will be at [p] in [delay] seconds. *)
Definition schedule (delay : nat) (p : string) (f : fobj) : M unit := λ w,
  (Ok (), settle (w_clock w) (w_arrivals w ++ [(w_clock w + delay, p, f)]) w).

Definition log_message (m : message) : M unit := record (Log m).

(** *** The operating system *)

Definition os_path_exists (p : string) : M bool :=
  w ← get_world;
  let b := bool_decide (is_Some (w_fs w !! p)) in
  record (PathExists p b);; mret b.

Definition os_makedirs (p : string) : M unit :=
  w ← get_world;
  match w_fs w !! p with
  | Some _ => mthrow FileExistsError
  | None => put_fs p (FDir [])
  end.

Definition shutil_rmtree (p : string) : M unit :=
  w ← get_world;
  match w_fs w !! p with
  | Some (FDir _) => del_fs p
  | Some _ => mthrow NotADirectoryError
  | None => mthrow FileNotFoundError
  end.

Definition os_remove (p : string) : M unit :=
  w ← get_world;
  match w_fs w !! p with
  | Some (FDir _) => mthrow IsADirectoryError
  | Some _ => del_fs p
  | None => mthrow FileNotFoundError
  end.

Definition time_sleep (seconds : nat) : M unit :=
  record (Sleep seconds);; tick seconds.

(** [os.listdir(folder)] *)
Definition os_listdir (folder : string) : M (list string) :=
  w ← get_world;
  match w_fs w !! folder with
  | Some (FDir t) => mret (listdir t)
  | Some _ => mthrow NotADirectoryError
  | None => mthrow FileNotFoundError
  end.

(** [with zipfile.ZipFile(p, 'r') as zip_ref: zip_ref.extractall(folder)] *)
Definition zip_extractall (p folder : string) : M unit :=
  w ← get_world;
  match w_fs w !! p with
  | Some (FZip a) =>
      match w_fs w !! folder with
      | Some (FDir t) =>
          let '(t', ok) := extractall a t in
          put_fs folder (FDir t');;
          if ok then mret () else mthrow FileExistsError
      | Some _ => mthrow NotADirectoryError
      | None => mthrow FileNotFoundError
      end
  | Some (FData _) => mthrow BadZipFile
  | Some (FDir _) => mthrow IsADirectoryError
  | None => mthrow FileNotFoundError
  end.

(** [with open(os.path.join(folder, file), 'r', encoding='utf-8') as f:
    f.read()] *)
Definition read_text (folder file : string) : M string :=
  w ← get_world;
  match w_fs w !! folder with
  | Some (FDir t) =>
      match lookup_name file t with
      | Some (File (Text s)) => mret (universal_newlines s)
      | Some (File (Binary _)) => mthrow UnicodeDecodeError
      | Some (Dir _) => mthrow IsADirectoryError
      | None => mthrow FileNotFoundError
      end
  | _ => mthrow FileNotFoundError
  end.

(** [with open(os.path.join(folder, file), 'w', encoding='utf-8') as f:
    f.write(text)] *)
Definition write_text (pl : platform) (folder file text : string) : M unit :=
  w ← get_world;
  match w_fs w !! folder with
  | Some (FDir t) =>
      match lookup_name file t with
      | Some (Dir _) => mthrow IsADirectoryError
      | _ =>
          put_fs folder
            (FDir (set_name file
                     (File (Text (translate_newlines (os_linesep pl) text)))
                     t))
      end
  | _ => mthrow FileNotFoundError
  end.

(** [zipfile.ZipFile(p, 'w', zipfile.ZIP_DEFLATED)]: the file is created
    or truncated. *)
Definition zip_create (p : string) : M unit :=
  w ← get_world;
  match w_fs w !! p with
  | Some (FDir _) => mthrow IsADirectoryError
  | _ => put_fs p (FZip [])
  end.

(** The [os.walk] loop with [zipf.write(file_path, arcname)] in it. *)
Definition zip_write_tree (p folder : string) : M unit :=
  w ← get_world;
  match w_fs w !! folder with
  | Some (FDir t) =>
      match w_fs w !! p with
      | Some (FZip a) => put_fs p (FZip (a ++ walk [] (Dir t)))
      | _ => mthrow FileNotFoundError
      end
  | _ => mret ()      (* [os.walk] of what is not a directory is empty *)
  end.

(** *** The server client *)

Definition sign_in (url : string) : M unit :=
  w ← get_world;
  if r_sign_in (w_servers w url) then record (SignedIn url)
  else mthrow ServerError.

Definition sign_out (url : string) : M unit :=
  w ← get_world;
  record (SignOut url);;
  if r_sign_out (w_servers w url) then mret () else mthrow ServerError.

Definition projects_get (url : string) : M (list project) :=
  w ← get_world;
  match r_projects_get (w_servers w url) with
  | Some ps => mret ps
  | None => mthrow ServerError
  end.

Definition workbooks_get (url name proj : string) : M (list workbook) :=
  w ← get_world;
  match r_workbooks_get (w_servers w url) name proj with
  | Some ws => mret ws
  | None => mthrow ServerError
  end.

Definition workbooks_download (url id base : string) : M unit :=
  w ← get_world;
  match r_download (w_servers w url) id with
  | DlRaises => mthrow ServerError
  | DlArrives delay f => schedule delay (base +:+ ".twbx") f
  | DlElsewhere => mret ()
  end.

Definition workbooks_publish (url proj_id name twbx : string) : M workbook :=
  w ← get_world;
  match r_publish (w_servers w url) proj_id name with
  | Some item => mret item
  | None => mthrow ServerError
  end.

(** ** The functions of [deploy_workbook.py] *)

Definition LOCAL_DIRECTORY : string := "C:\temp\DataFiles".

Record environment := {
  server_url : string;
  token_name : string;
  personal_access_token : string;
  site_name : string;
}.

Definition ENVIRONMENTS : gmap string environment :=
  list_to_map [
    ("PROD", {| server_url := "https://produs-tableau.internal.lrn.com";
                token_name := "deployment";
                personal_access_token := "";
                site_name := "QA" |});
    ("QA", {| server_url := "https://qalrn-tableau.internal.lrn.com";
              token_name := "dev";
              personal_access_token := "";
              site_name := "QA" |});
    ("EUPROD", {| server_url := "https://prodeu-tableau.internal.lrn.com/";
                  token_name := "migration";
                  personal_access_token := "";
                  site_name := "QA" |})
  ].

(** The migration configuration, as [json.load] gives it to
    [process_workbook_migration]. *)
Record config := {
  source_env : string;
  dest_env : string;
  workbook_name : string;
  source_project_name : string;
  dest_project_name : string;
  url_find : string;          (* config["url_replacement"]["find"] *)
  url_replace : string;       (* config["url_replacement"]["replace"] *)
}.

Definition ensure_local_directory : M unit :=
  exists_ ← os_path_exists LOCAL_DIRECTORY;
  if exists_ : bool then mret ()
  else (os_makedirs LOCAL_DIRECTORY;; log_message MCreatedLocalDir).

(** The server object that [authenticate] returns is known by its URL. *)
Definition authenticate (env : string) : M (option string) :=
  match ENVIRONMENTS !! env with
  | None => log_message (MEnvNotFound env);; mret None
  | Some config =>
      let server := server_url config in
      sign_in server;;
      log_message (MAuthenticated env (server_url config));;
      mret (Some server)
  end.

Definition find_project_by_name (server : string) (project_name : string)
    : M (option project) :=
  let project_name :=
    if startswith project_name "/" then drop 1 project_name
    else project_name in
  all_projects ← projects_get server;
  for_each all_projects (λ project,
    if String.eqb (lower (proj_name project)) (lower project_name)
    then log_message (MFoundProject (proj_name project) (proj_id project));;
         mret (Some project)
    else mret None).

Section platform.
Context (pl : platform).

Definition download_workbook_from_project
    (server workbook_name project_name : string) : M (option string) :=
  log_message (MAttemptDownload workbook_name project_name);;
  project ← find_project_by_name server project_name;
  match project with
  | None =>
      log_message (MSourceProjectNotFound project_name);; mret None
  | Some project =>
      matching_workbooks ←
        workbooks_get server workbook_name (proj_name project);
      match matching_workbooks with
      | [] =>
          log_message (MWorkbookNotFound workbook_name (proj_name project));;
          mret None
      | workbook_to_download :: _ =>
          let base_download_path :=
            os_path_join pl LOCAL_DIRECTORY ("source_" +:+ workbook_name) in
          let expected_download_path := base_download_path +:+ ".twbx" in
          let max_wait_seconds := 20 in
          r ← attempt (
            log_message (MDownloading (wb_id workbook_to_download)
                                      base_download_path);;
            workbooks_download server (wb_id workbook_to_download)
                               base_download_path;;
            found ← for_each (seq 0 max_wait_seconds) (λ i,
              exists_ ← os_path_exists expected_download_path;
              if exists_ : bool
              then log_message (MDownloadPresent (i + 1));;
                   mret (Some expected_download_path)
              else time_sleep 1;; mret None);
            match found with
            | Some p => mret (Some p)
            | None =>
                log_message (MDownloadTimedOut expected_download_path
                                               max_wait_seconds);;
                mret None
            end);
          match r with
          | Ok v => mret v
          | Raised e => log_message (MDownloadException e);; mret None
          end
      end
  end.

(** The [for file in os.listdir(extract_folder)] loop with its
    [break]. *)
Definition find_twb_file (names : list string) : option string :=
  List.find (λ file, endswith (lower file) ".twb") names.

Definition modify_and_repackage_workbook
    (twbx_path workbook_name find_str replace_str : string)
    : M (option string) :=
  let extract_folder :=
    os_path_join pl LOCAL_DIRECTORY (workbook_name +:+ "_extracted") in
  let modified_twbx_path :=
    os_path_join pl LOCAL_DIRECTORY
      ("modified_" +:+ workbook_name +:+ ".twbx") in
  log_message (MExtracting twbx_path extract_folder);;
  r ← attempt (
    exists_ ← os_path_exists extract_folder;
    (if exists_ : bool then shutil_rmtree extract_folder else mret ());;
    os_makedirs extract_folder;;
    zip_extractall twbx_path extract_folder);
  match r with
  | Raised e => log_message (MExtractFailed e);; mret None
  | Ok _ =>
  names ← os_listdir extract_folder;
  match find_twb_file names with
  | None =>
      log_message MNoTwbFile;;
      shutil_rmtree extract_folder;;
      mret None
  | Some file =>
  log_message (MFoundTwbFile extract_folder file);;
  r ← attempt (
    content ← read_text extract_folder file;
    (if negb (contains content find_str)
     then log_message MFindStringAbsent;;
          log_message (MStringNotFound find_str)
     else mret ());;
    let modified_content := replace content find_str replace_str in
    write_text pl extract_folder file modified_content;;
    log_message MReplacementComplete);
  match r with
  | Raised e =>
      log_message (MReadWriteFailed e);;
      shutil_rmtree extract_folder;;
      mret None
  | Ok _ =>
  log_message (MRepackaging modified_twbx_path);;
  r ← attempt (
    zip_create modified_twbx_path;;
    zip_write_tree modified_twbx_path extract_folder;;
    log_message MRepackaged);
  match r with
  | Raised e =>
      log_message (MRepackFailed e);;
      shutil_rmtree extract_folder;;
      mret None
  | Ok _ =>
  shutil_rmtree extract_folder;;
  mret (Some modified_twbx_path)
  end end end end.

Definition publish_modified_workbook
    (server twbx_path workbook_name project_name : string) : M unit :=
  log_message (MAttemptPublish workbook_name project_name);;
  project ← find_project_by_name server project_name;
  match project with
  | None => log_message (MDestProjectNotFound project_name)
  | Some project =>
      r ← attempt (
        log_message (MPublishing twbx_path);;
        published_item ←
          workbooks_publish server (proj_id project) workbook_name twbx_path;
        log_message (MPublished (wb_name published_item)
                                (wb_id published_item)));
      match r with
      | Ok _ => mret ()
      | Raised e => log_message (MPublishFailed e)
      end
  end.

Definition process_workbook_migration (config : config) : M unit :=
  log_message MStarting;;
  let workbook_name := workbook_name config in
  ensure_local_directory;;
  source_server ← authenticate (source_env config);
  match source_server with
  | None => mret ()
  | Some source_server =>
  downloaded_twbx_path ←
    download_workbook_from_project source_server workbook_name
      (source_project_name config);
  sign_out source_server;;
  match downloaded_twbx_path with
  | None => log_message MHaltDownload
  | Some downloaded_twbx_path =>
  modified_twbx_path ←
    modify_and_repackage_workbook downloaded_twbx_path workbook_name
      (url_find config) (url_replace config);
  match modified_twbx_path with
  | None => log_message MHaltModify
  | Some modified_twbx_path =>
  dest_server ← authenticate (dest_env config);
  match dest_server with
  | None => mret ()
  | Some dest_server =>
  publish_modified_workbook dest_server modified_twbx_path workbook_name
    (dest_project_name config);;
  sign_out dest_server;;
  log_message MCleaningUp;;
  r ← attempt (
    exists_ ← os_path_exists downloaded_twbx_path;
    (if exists_ : bool then os_remove downloaded_twbx_path else mret ());;
    exists_ ← os_path_exists modified_twbx_path;
    (if exists_ : bool then os_remove modified_twbx_path else mret ());;
    log_message MCleanupComplete);
  (match r with
   | Ok _ => mret ()
   | Raised e => log_message (MCleanupWarning e)
   end);;
  log_message MFinished
  end end end end.

End platform.

(** The paths that [modify_and_repackage_workbook] computes. *)
Definition extract_folder (pl : platform) (workbook_name : string) : string :=
  os_path_join pl LOCAL_DIRECTORY (workbook_name +:+ "_extracted").
Definition modified_path (pl : platform) (workbook_name : string) : string :=
  os_path_join pl LOCAL_DIRECTORY ("modified_" +:+ workbook_name +:+ ".twbx").

(** What the transformer writes for a definition file whose data is
    [raw]. *)
Definition rewritten (pl : platform) (find_str replace_str raw : string) : content :=
  Text (translate_newlines (os_linesep pl)
          (replace (universal_newlines raw) find_str replace_str)).

(** [expected_download_path] of [download_workbook_from_project]. *)
Definition expected_path (pl : platform) (workbook_name : string) : string :=
  os_path_join pl LOCAL_DIRECTORY ("source_" +:+ workbook_name) +:+ ".twbx".

(** The name that [find_project_by_name] looks for. *)
Definition requested (project_name : string) : string :=
  if startswith project_name "/" then drop 1 project_name else project_name.

(** The comparison of [find_project_by_name]. *)
Definition name_matches (key : string) (p : project) : bool :=
  String.eqb (lower (proj_name p)) (lower key).

(** Both archives of a run are on disk. *)
Definition archives_remain (pl : platform) (cfg : config) (w : world) : Prop :=
  is_Some (w_fs w !! expected_path pl (workbook_name cfg))
  ∧ is_Some (w_fs w !! modified_path pl (workbook_name cfg)).

(** ** Reading a trace *)

(** One round of the wait loop that does not find the file. *)
Definition poll_miss (p : string) : list event := [PathExists p false; Sleep 1].

(** The events of a run whose download times out. *)
Definition timeout_trace (pl : platform) (cfg : config) (src : environment)
    (p : project) (wb : workbook) (local_dir_exists sign_out_ok : bool)
    : list event :=
  [Log MStarting; PathExists LOCAL_DIRECTORY local_dir_exists]
  ++ (if local_dir_exists then [] else [Log MCreatedLocalDir])
  ++ [SignedIn (server_url src);
      Log (MAuthenticated (source_env cfg) (server_url src));
      Log (MAttemptDownload (workbook_name cfg) (source_project_name cfg));
      Log (MFoundProject (proj_name p) (proj_id p));
      Log (MDownloading (wb_id wb)
             (os_path_join pl LOCAL_DIRECTORY ("source_" +:+ workbook_name cfg)))]
  ++ List.concat (replicate 20 (poll_miss (expected_path pl (workbook_name cfg))))
  ++ [Log (MDownloadTimedOut (expected_path pl (workbook_name cfg)) 20);
      SignOut (server_url src)]
  ++ (if sign_out_ok then [Log MHaltDownload] else []).

(** The fetcher found the file. *)
Definition download_succeeded (tr : list event) : bool :=
  existsb (λ e, match e with Log (MDownloadPresent _) => true | _ => false end) tr.

(** The transformer wrote the new archive. *)
Definition transform_succeeded (tr : list event) : bool :=
  existsb (λ e, match e with Log MRepackaged => true | _ => false end) tr.

(** How often the existence of [p] was checked. *)
Definition polls_of (p : string) (tr : list event) : nat :=
  List.length (List.filter (λ e, match e with
                                 | PathExists q _ => String.eqb q p
                                 | _ => false
                                 end) tr).

(** A check found [p] on disk. *)
Definition seen_on_disk (p : string) (tr : list event) : bool :=
  existsb (λ e, match e with
                | PathExists q true => String.eqb q p
                | _ => false
                end) tr.

(** The transformer stage was entered: its first statement logs
    [MExtracting]. *)
Definition transformer_ran (tr : list event) : bool :=
  existsb (λ e, match e with Log (MExtracting _ _) => true | _ => false end) tr.

(** The publisher stage was entered: its first statement logs
    [MAttemptPublish]. *)
Definition publisher_ran (tr : list event) : bool :=
  existsb (λ e, match e with Log (MAttemptPublish _ _) => true | _ => false end) tr.

(** The transformer reported that the archive has no definition file. *)
Definition no_twb_reported (tr : list event) : bool :=
  existsb (λ e, match e with Log MNoTwbFile => true | _ => false end) tr.

(** The definition files that the transformer reported to have found. *)
Definition twb_located (tr : list event) : list string :=
  tr ≫= λ e, match e with Log (MFoundTwbFile _ file) => [file] | _ => [] end.

(** The publisher reported a failure: no project for the destination
    name, or an upload that raised. *)
Definition publish_failed (tr : list event) : bool :=
  existsb (λ e, match e with
                | Log (MDestProjectNotFound _) | Log (MPublishFailed _) => true
                | _ => false
                end) tr.

(** The clean-up ran to its end. *)
Definition cleanup_completed (tr : list event) : bool :=
  existsb (λ e, match e with Log MCleanupComplete => true | _ => false end) tr.

(** The sessions opened and the sign-outs, server by server. *)
Definition sign_ins (url : string) (tr : list event) : nat :=
  List.length (List.filter (λ e, match e with
                                 | SignedIn u => String.eqb u url
                                 | _ => false
                                 end) tr).
Definition sign_outs (url : string) (tr : list event) : nat :=
  List.length (List.filter (λ e, match e with
                                 | SignOut u => String.eqb u url
                                 | _ => false
                                 end) tr).

(** Events of the stages before the transformer: none of the transformer,
    none of the publisher. *)
Definition quiet (tr : list event) : Prop :=
  publish_failed tr = false ∧ transformer_ran tr = false ∧ publisher_ran tr = false.

Definition found_project (o : option project) (w : world) : world :=
  match o with
  | Some p => emit (Log (MFoundProject (proj_name p) (proj_id p))) w
  | None => w
  end.

Definition all_populated (t : tree) : Prop := Forall (λ e, populated e.2) t.

End Script.

(* ================================================================== *)
(** * Concrete runs *)
(* ================================================================== *)

Module Example.
Import PyStr Tree Script.

Definition qa_url : string := "https://qalrn-tableau.internal.lrn.com".
Definition prod_url : string := "https://produs-tableau.internal.lrn.com".

Definition finance : project := {| proj_name := "Finance"; proj_id := "p-17" |}.
Definition marketing : project := {| proj_name := "Marketing"; proj_id := "p-4" |}.
Definition sales : project := {| proj_name := "Sales"; proj_id := "p-9" |}.
Definition revenue : workbook := {| wb_name := "Revenue"; wb_id := "wb-3" |}.

(** The scenario of the specification. *)
Definition cfg : config :=
  {| source_env := "QA"; dest_env := "PROD"; workbook_name := "Revenue";
     source_project_name := "Finance"; dest_project_name := "Finance";
     url_find := "http://old.host/api"; url_replace := "http://new.host/api" |}.

Definition hyper : content := Binary [Byte.xff; Byte.x00; Byte.x01].

(** A workbook archive: the definition file at the top, an extract
    below. *)
Definition twb : content :=
  Text "<workbook url='http://old.host/api'><a href='http://old.host/api/v2'/></workbook>".
Definition twbx : archive :=
  [ (["Revenue.twb"], twb);
    (["Data"; "Extracts"; "revenue.hyper"], hyper) ].

(** A definition file that does not hold [url_find cfg], with one line
    that ends in CR LF and one that ends in LF. *)
Definition twb_plain_text : string :=
  "<workbook>" +:+ String CR (String LF "<sheet/>") +:+ String LF "</workbook>".
Definition twbx_plain : archive :=
  [ (["Revenue.twb"], Text twb_plain_text);
    (["Data"; "Extracts"; "revenue.hyper"], hyper) ].

(** An archive whose only definition file is inside a directory. *)
Definition twbx_nested : archive :=
  [ (["Data"; "Revenue.twb"], twb);
    (["Data"; "Extracts"; "revenue.hyper"], hyper) ].

(** A server that has the project and the workbook, and that sends [f]
    at once. *)
Definition serving (f : fobj) : remote :=
  {| r_sign_in := true; r_sign_out := true;
     r_projects_get := Some [marketing; finance];
     r_workbooks_get := λ _ _, Some [revenue];
     r_download := λ _, DlArrives 0 f;
     r_publish := λ _ name, Some {| wb_name := name; wb_id := "wb-77" |} |}.

(** The same server when the workbook it holds is not a packaged one:
    the download is written under another extension. *)
Definition serving_unpackaged : remote :=
  {| r_sign_in := true; r_sign_out := true;
     r_projects_get := Some [marketing; finance];
     r_workbooks_get := λ _ _, Some [revenue];
     r_download := λ _, DlElsewhere;
     r_publish := λ _ _, None |}.

(** A server without the project "Finance". *)
Definition without_finance : remote :=
  {| r_sign_in := true; r_sign_out := true;
     r_projects_get := Some [marketing; sales];
     r_workbooks_get := λ _ _, Some [];
     r_download := λ _, DlRaises;
     r_publish := λ _ _, None |}.

(** A server whose project listing raises. *)
Definition listing_fails : remote :=
  {| r_sign_in := true; r_sign_out := true;
     r_projects_get := None;
     r_workbooks_get := λ _ _, Some [revenue];
     r_download := λ _, DlArrives 0 (FZip twbx);
     r_publish := λ _ _, None |}.

(** An empty disk, the source server [src] and the destination server
    [dst]. *)
Definition start (src dst : remote) : world :=
  {| w_servers := λ url, if String.eqb url qa_url then src else dst;
     w_fs := ∅; w_clock := 0; w_arrivals := []; w_trace := [] |}.

(** A disk that holds [f] where the fetcher puts the download. *)
Definition downloaded (pl : platform) (f : fobj) : world :=
  {| w_servers := λ _, without_finance;
     w_fs := {[ expected_path pl "Revenue" := f ]};
     w_clock := 0; w_arrivals := []; w_trace := [] |}.

(** The runs that the theorems below are checked on. *)

(** Download and transformation succeed; the destination has no project
    "Finance". *)
Definition unpublished_run : result () * world :=
  process_workbook_migration Windows cfg (start (serving (FZip twbx)) without_finance).

(** The download is never written where the fetcher waits for it. *)
Definition timed_out_run : result () * world :=
  process_workbook_migration Windows cfg (start serving_unpackaged without_finance).

(** The project listing of the source server raises. *)
Definition leaking_run : result () * world :=
  process_workbook_migration Windows cfg (start listing_fails without_finance).

(** The transformer alone, on a disk that holds [f] as the download. *)
Definition transform (pl : platform) (f : fobj) : result (option string) * world :=
  modify_and_repackage_workbook pl (expected_path pl "Revenue") "Revenue"
    (url_find cfg) (url_replace cfg) (downloaded pl f).

(** A definition file whose one line end is CR LF, and two strings to
    look for: one with that line end in it, one with LF in its place. *)
Definition twb_crlf_text : string :=
  "<a>x" +:+ String CR (String LF "y</a>").
Definition twbx_crlf : archive :=
  [ (["Revenue.twb"], Text twb_crlf_text);
    (["Data"; "Extracts"; "revenue.hyper"], hyper) ].
Definition find_crlf : string := "x" +:+ String CR (String LF "y").
Definition find_lf : string := "x" +:+ String LF "y".

(** The transformer alone, with a find string and a replace string of
    its own. *)
Definition transform_with (pl : platform) (f : fobj) (find_str replace_str : string)
    : result (option string) * world :=
  modify_and_repackage_workbook pl (expected_path pl "Revenue") "Revenue"
    find_str replace_str (downloaded pl f).

(** The member [p] of the archive that the transformer produced. *)
Definition produced (pl : platform) (run : result (option string) * world)
    (p : path) : list content :=
  match w_fs run.2 !! modified_path pl "Revenue" with
  | Some (FZip out) => (List.filter (λ e, bool_decide (e.1 = p)) out).*2
  | _ => []
  end.

End Example.

Import PyStr Tree Script.

(* ================================================================== *)
(** * More readings of a trace *)
(* ================================================================== *)

Module Reading.

(** The publisher reported that the workbook is published. *)
Definition published (tr : list event) : bool :=
  existsb (λ e, match e with Log (MPublished _ _) => true | _ => false end) tr.

(** The orchestrator reached its clean-up. *)
Definition cleanup_started (tr : list event) : bool :=
  existsb (λ e, match e with Log MCleaningUp => true | _ => false end) tr.

(** No event of a session: no sign-in and no sign-out. *)
Definition offline (tr : list event) : Prop :=
  Forall (λ e, match e with SignedIn _ | SignOut _ => False | _ => True end) tr.

End Reading.

(* ================================================================== *)
(** * More concrete runs *)
(* ================================================================== *)

Module Trial.
Import Example.

(** The server of [serving], when the download is on disk [d] seconds
    after the request. *)
Definition serving_after (d : nat) (f : fobj) : remote :=
  {| r_sign_in := true; r_sign_out := true;
     r_projects_get := Some [marketing; finance];
     r_workbooks_get := λ _ _, Some [revenue];
     r_download := λ _, DlArrives d f;
     r_publish := λ _ name, Some {| wb_name := name; wb_id := "wb-77" |} |}.

(** A disk on which an earlier run has left [f] where the fetcher waits
    for the download, and a server that writes the download elsewhere. *)
Definition with_stale_file (pl : platform) (f : fobj) : world :=
  {| w_servers := λ _, serving_unpackaged;
     w_fs := {[ expected_path pl "Revenue" := f ]};
     w_clock := 0; w_arrivals := []; w_trace := [] |}.

(** A disk that holds the download [f] and a directory [t0] at the path
    of the extraction directory. *)
Definition with_stale_folder (pl : platform) (f : fobj) (t0 : tree) : world :=
  {| w_servers := λ _, without_finance;
     w_fs := {[ expected_path pl "Revenue" := f;
                extract_folder pl "Revenue" := FDir t0 ]};
     w_clock := 0; w_arrivals := []; w_trace := [] |}.

(** The fetcher of the scenario on the source server. *)
Definition fetch (pl : platform) (w : world) : result (option string) * world :=
  download_workbook_from_project pl qa_url "Revenue" "Finance" w.

(** The whole scenario with a download that takes [d] seconds. *)
Definition migration (d : nat) : result () * world :=
  process_workbook_migration Windows cfg
    (start (serving_after d (FZip twbx)) (serving (FZip twbx))).

End Trial.

(* ================================================================== *)
(** * Proofs *)
(* ================================================================== *)

Import PyStr Tree Script Example.

(** ** Strings *)

Section strings.
Implicit Types s t p find repl : string.

Lemma str_app_cons c s t : String c s +:+ t = String c (s +:+ t).
Proof. reflexivity. Qed.

Lemma str_app_nil_l s : "" +:+ s = s.
Proof. reflexivity. Qed.

Lemma str_app_nil_r s : s +:+ "" = s.
Proof. induction s; [done|]. rewrite str_app_cons; congruence. Qed.

Lemma str_app_assoc s t u : (s +:+ t) +:+ u = s +:+ t +:+ u.
Proof. induction s; [done|]. rewrite !str_app_cons; congruence. Qed.

Lemma str_length_app s t : String.length (s +:+ t) = String.length s + String.length t.
Proof. induction s; [done|]. rewrite str_app_cons; simpl; congruence. Qed.

Lemma str_drop_0 s : drop 0 s = s.
Proof. by destruct s. Qed.

Lemma str_drop_app s t : drop (String.length s) (s +:+ t) = t.
Proof. induction s; rewrite ?str_app_cons, ?str_app_nil_l; simpl; [apply str_drop_0|done]. Qed.

Lemma startswith_app s p : startswith (p +:+ s) p = true.
Proof. induction p as [|a p IH]; rewrite ?str_app_cons; simpl; [done|]. by rewrite Ascii.eqb_refl. Qed.

Lemma startswith_split s p : startswith s p = true → s = p +:+ drop (String.length p) s.
Proof.
  revert s. induction p as [|a p IH]; intros [|b s]; simpl; try done.
  destruct (Ascii.eqb_spec a b) as [->|]; [|done].
  intros H. rewrite str_app_cons. f_equal. by apply IH.
Qed.

Lemma startswith_spec s p : startswith s p = true ↔ ∃ r, s = p +:+ r.
Proof.
  split.
  - intros H. eexists. by apply startswith_split.
  - intros [r ->]. apply startswith_app.
Qed.

Lemma str_drop_split n s : n ≤ String.length s → ∃ pre, s = pre +:+ drop n s ∧ String.length pre = n.
Proof.
  revert s; induction n as [|n IH]; intros s Hn.
  - exists "". by rewrite str_drop_0.
  - destruct s as [|c s]; simpl in *; [lia|].
    destruct (IH s) as (pre & E & L); [lia|].
    exists (String c pre). rewrite str_app_cons. split; [congruence|simpl; congruence].
Qed.

Lemma endswith_spec s suf : endswith s suf = true ↔ ∃ pre, s = pre +:+ suf.
Proof.
  unfold endswith. rewrite andb_true_iff, Nat.leb_le. split.
  - intros [Hle Heq]. destruct (String.eqb_spec (drop (String.length s - String.length suf) s) suf) as [E|]; [|done].
    destruct (str_drop_split (String.length s - String.length suf) s) as (pre & Es & _); [lia|].
    exists pre. congruence.
  - intros [pre ->]. rewrite str_length_app. split; [lia|].
    replace (String.length pre + String.length suf - String.length suf) with (String.length pre) by lia.
    rewrite str_drop_app. apply String.eqb_refl.
Qed.

Lemma contains_spec s find : contains s find = true ↔ ∃ i, occurs_at find s i.
Proof.
  induction s as [|c s IH]; simpl.
  - rewrite orb_false_r, startswith_spec. split.
    + intros [r E]. exists 0, "", r. by rewrite str_app_nil_l.
    + intros (i & pre & post & E & _). destruct pre; [|done]. rewrite str_app_nil_l in E. eauto.
  - rewrite orb_true_iff, IH, startswith_spec. split.
    + intros [[r E]|(i & pre & post & E & L)].
      * exists 0, "", r. by rewrite str_app_nil_l.
      * exists (S i), (String c pre), post. rewrite str_app_cons, E. simpl. auto.
    + intros (i & pre & post & E & L). destruct pre as [|c' pre].
      * left. rewrite str_app_nil_l in E. eauto.
      * right. rewrite str_app_cons in E. injection E as -> E. simpl in L. exists (String.length pre), pre, post. done.
Qed.

Lemma occurs_at_0 find s : occurs_at find s 0 ↔ startswith s find = true.
Proof.
  rewrite startswith_spec. split.
  - intros (pre & post & E & L). destruct pre; [|done]. eauto.
  - intros [r E]. exists "", r. done.
Qed.

Lemma occurs_at_S find c s i : occurs_at find (String c s) (S i) ↔ occurs_at find s i.
Proof.
  split.
  - intros (pre & post & E & L). destruct pre as [|c' pre]; [done|].
    rewrite str_app_cons in E. injection E as -> E. exists pre, post. simpl in L. split; [done|lia].
  - intros (pre & post & E & L). exists (String c pre), post. rewrite str_app_cons, E. simpl. auto.
Qed.

Lemma find_index_None s find :
  find_index s find = None → ∀ i, ¬ occurs_at find s i.
Proof.
  induction s as [|c s IH]; simpl.
  - destruct (startswith "" find) eqn:E; [done|]. intros _ i (pre & post & Es & L).
    destruct pre; [|done]. rewrite str_app_nil_l in Es.
    assert (startswith "" find = true) by (apply startswith_spec; eauto). congruence.
  - destruct (startswith (String c s) find) eqn:E; [done|].
    destruct (find_index s find) eqn:F; [done|]. intros _ [|i].
    + rewrite occurs_at_0. congruence.
    + rewrite occurs_at_S. by apply IH.
Qed.

Lemma find_index_Some s find n :
  find_index s find = Some n →
  ∃ pre post, s = pre +:+ find +:+ post ∧ String.length pre = n
              ∧ ∀ i, i < n → ¬ occurs_at find s i.
Proof.
  revert n; induction s as [|c s IH]; intros n; simpl.
  - destruct (startswith "" find) eqn:E; [|done]. intros [= <-].
    apply startswith_spec in E as [r E]. exists "", r. repeat split; [done|]. lia.
  - destruct (startswith (String c s) find) eqn:E.
    + intros [= <-]. apply startswith_spec in E as [r E]. exists "", r.
      repeat split; [done|]. lia.
    + destruct (find_index s find) as [m|] eqn:F; [|done]. intros [= <-].
      destruct (IH m eq_refl) as (pre & post & Es & L & Hleft).
      exists (String c pre), post. rewrite str_app_cons, <- Es. simpl. repeat split; [congruence|].
      intros [|i] Hi; [rewrite occurs_at_0; congruence|].
      rewrite occurs_at_S. apply Hleft. lia.
Qed.

(** *** The scan *)

Lemma replace_scan_skip find repl k s :
  replace_scan find repl k s = replace_scan find repl 0 (drop k s).
Proof.
  revert k; induction s as [|c s IH]; intros [|k]; try done.
  simpl. apply IH.
Qed.

Lemma replace_scan_hit find repl s :
  find ≠ "" → startswith s find = true →
  replace_scan find repl 0 s = repl +:+ replace_scan find repl 0 (drop (String.length find) s).
Proof.
  intros Hne Hs. destruct find as [|a find]; [done|].
  destruct s as [|c s]; [done|].
  cbn [replace_scan]. rewrite Hs. rewrite replace_scan_skip. simpl.
  by rewrite Nat.sub_0_r.
Qed.

Lemma replace_scan_miss find repl c s :
  startswith (String c s) find = false →
  replace_scan find repl 0 (String c s) = String c (replace_scan find repl 0 s).
Proof. intros Hs. cbn [replace_scan]. by rewrite Hs. Qed.

Lemma replace_scan_prefix find repl pre rest :
  (∀ i, i < String.length pre → ¬ occurs_at find (pre +:+ rest) i) →
  replace_scan find repl 0 (pre +:+ rest) = pre +:+ replace_scan find repl 0 rest.
Proof.
  induction pre as [|c pre IH]; intros Hleft; [done|].
  rewrite !str_app_cons. rewrite replace_scan_miss.
  - f_equal. apply IH. intros i Hi. rewrite <- occurs_at_S. apply Hleft. simpl. lia.
  - apply not_true_is_false. rewrite <- occurs_at_0. apply Hleft. simpl. lia.
Qed.

Lemma replace_scan_no_occurrence find repl s :
  (∀ i, ¬ occurs_at find s i) → replace_scan find repl 0 s = s.
Proof.
  intros H. rewrite <- (str_app_nil_r s) at 1. rewrite replace_scan_prefix.
  - simpl. apply str_app_nil_r.
  - intros i _. rewrite str_app_nil_r. apply H.
Qed.

Lemma replace_scan_leftmost find repl pre post :
  find ≠ "" →
  (∀ i, i < String.length pre → ¬ occurs_at find (pre +:+ find +:+ post) i) →
  replace_scan find repl 0 (pre +:+ find +:+ post)
  = pre +:+ repl +:+ replace_scan find repl 0 post.
Proof.
  intros Hne Hleft. rewrite replace_scan_prefix by done.
  rewrite replace_scan_hit by (done || apply startswith_app).
  by rewrite str_drop_app.
Qed.

Lemma replace_scan_literal find repl s :
  find ≠ "" → literal_replace find repl s (replace_scan find repl 0 s).
Proof.
  intros Hne. remember (String.length s) as n eqn:Hn. revert s Hn.
  induction (lt_wf n) as [n _ IH]. intros s ->.
  destruct (find_index s find) as [k|] eqn:F.
  - apply find_index_Some in F as (pre & post & -> & <- & Hleft).
    rewrite replace_scan_leftmost by done.
    apply lr_leftmost; [done|]. eapply IH; [|done].
    rewrite !str_length_app. destruct find; [done|]. simpl. lia.
  - pose proof (find_index_None _ _ F) as Hno.
    rewrite replace_scan_no_occurrence by done. by apply lr_none.
Qed.

Lemma literal_replace_unique find repl s out :
  find ≠ "" → literal_replace find repl s out → out = replace_scan find repl 0 s.
Proof.
  intros Hne. induction 1 as [s Hno|pre post out Hleft _ IH].
  - by rewrite replace_scan_no_occurrence.
  - rewrite replace_scan_leftmost by done. by rewrite IH.
Qed.

Lemma replace_nonempty s find repl :
  find ≠ "" → replace s find repl = replace_scan find repl 0 s.
Proof. by destruct find. Qed.

Lemma replace_absent s find repl :
  contains s find = false → replace s find repl = s.
Proof.
  intros Hc. destruct find as [|a find]; [by destruct s|].
  rewrite replace_nonempty by done. apply replace_scan_no_occurrence.
  intros i Hi. assert (contains s (String a find) = true); [|congruence].
  apply contains_spec. eauto.
Qed.

End strings.

(** ** Project lookup *)

Lemma project_loop_run ps key w :
  for_each ps (λ project,
      if String.eqb (lower (proj_name project)) (lower key)
      then log_message (MFoundProject (proj_name project) (proj_id project));;
           mret (Some project)
      else mret None) w
  = (Ok (List.find (name_matches key) ps),
     found_project (List.find (name_matches key) ps) w).
Proof.
  induction ps as [|p ps IH]; [done|].
  cbn [for_each List.find]. unfold name_matches at 1 3.
  destruct (String.eqb _ _) eqn:E; [done|].
  apply IH.
Qed.

Lemma find_project_by_name_run server name w ps :
  r_projects_get (w_servers w server) = Some ps →
  find_project_by_name server name w
  = (Ok (List.find (name_matches (requested name)) ps),
     found_project (List.find (name_matches (requested name)) ps) w).
Proof.
  intros Hps. unfold find_project_by_name, projects_get.
  unfold mbind at 1, M_bind at 1. unfold mbind at 1, M_bind at 1. cbn [get_world].
  rewrite Hps. cbn. apply project_loop_run.
Qed.

Lemma find_project_by_name_raises server name w :
  r_projects_get (w_servers w server) = None →
  find_project_by_name server name w = (Raised ServerError, w).
Proof.
  intros Hps. unfold find_project_by_name, projects_get.
  unfold mbind at 1, M_bind at 1. unfold mbind at 1, M_bind at 1. cbn [get_world].
  by rewrite Hps.
Qed.

Lemma requested_slash s : requested ("/" +:+ s) = s.
Proof. unfold requested. rewrite str_app_cons. simpl. by destruct s. Qed.

Lemma requested_plain s : startswith s "/" = false → requested s = s.
Proof. unfold requested. by intros ->. Qed.

(** ** The monad and the first steps of a run *)

Lemma bind_run {A B} (m : M A) (f : A → M B) w :
  (m ≫= f) w = match m w with
               | (Ok a, w') => f a w'
               | (Raised e, w') => (Raised e, w')
               end.
Proof. reflexivity. Qed.

Ltac trace_eq := repeat rewrite <- app_assoc; cbn [app List.app]; try done.

Ltac run_unfold :=
  unfold os_path_exists, os_makedirs, shutil_rmtree, os_remove, time_sleep,
    os_listdir, zip_extractall, read_text, write_text, zip_create,
    zip_write_tree, sign_in, sign_out, projects_get, workbooks_get,
    workbooks_download, workbooks_publish, log_message, attempt,
    get_world, put_fs, del_fs, record, tick, schedule;
  unfold mbind, M_bind, mret, M_ret, mthrow, M_throw.

Lemma authenticate_unknown env w :
  ENVIRONMENTS !! env = None →
  authenticate env w = (Ok None, emit (Log (MEnvNotFound env)) w).
Proof. intros E. unfold authenticate. by rewrite E. Qed.

Lemma authenticate_known env e w :
  ENVIRONMENTS !! env = Some e →
  authenticate env w
  = if r_sign_in (w_servers w (server_url e))
    then (Ok (Some (server_url e)),
          emit (Log (MAuthenticated env (server_url e)))
            (emit (SignedIn (server_url e)) w))
    else (Raised ServerError, w).
Proof.
  intros E. unfold authenticate. rewrite E. run_unfold.
  by destruct (r_sign_in _).
Qed.

Lemma settle_servers clock arrivals w :
  w_servers (settle clock arrivals w) = w_servers w.
Proof. unfold settle. by destruct (land _ _ _). Qed.

Lemma settle_trace clock arrivals w :
  w_trace (settle clock arrivals w) = w_trace w.
Proof. unfold settle. by destruct (land _ _ _). Qed.

Lemma str_app_ne_self s t : t ≠ "" → s +:+ t ≠ s.
Proof.
  intros Ht E. apply (f_equal String.length) in E. rewrite str_length_app in E.
  destruct t; [done|]. simpl in E. lia.
Qed.

Lemma expected_path_ne_local pl wbname : expected_path pl wbname ≠ LOCAL_DIRECTORY.
Proof.
  unfold expected_path, os_path_join. rewrite !str_app_assoc.
  apply str_app_ne_self. by destruct pl.
Qed.

(** ** Trees and archives *)

Section tree.
Implicit Types (t : tree) (p q r : path) (n m k : string) (c d : content) (v u : node).

(** Induction on nodes, with the hypothesis for every entry of a
    directory. *)
Lemma node_ind' (P : node → Prop) :
  (∀ c, P (File c)) →
  (∀ es, Forall (λ e, P e.2) es → P (Dir es)) →
  ∀ v, P v.
Proof.
  intros Hf Hd. fix IH 1. intros [c|es]; [apply Hf|].
  apply Hd. induction es as [|[m v] es IHes]; constructor; [apply IH|apply IHes].
Qed.

(** ** One directory *)

Lemma lookup_name_elem n v t : lookup_name n t = Some v → (n, v) ∈ t.
Proof.
  induction t as [|[m u] t IH]; simpl; [done|].
  destruct (String.eqb_spec m n) as [->|]; [intros [= ->]; left|].
  intros H. right. auto.
Qed.

Lemma elem_lookup_name n v t : NoDup t.*1 → (n, v) ∈ t → lookup_name n t = Some v.
Proof.
  induction t as [|[m u] t IH]; simpl; [intros _ H; by apply elem_of_nil in H|].
  intros Hnd Hin. apply NoDup_cons in Hnd as [Hm Hnd].
  apply elem_of_cons in Hin as [E|Hin].
  - injection E as -> ->. by rewrite String.eqb_refl.
  - destruct (String.eqb_spec m n) as [->|]; [|auto].
    destruct Hm. apply list_elem_of_fmap. by exists (n, v).
Qed.

Lemma lookup_set_eq n v t : lookup_name n (set_name n v t) = Some v.
Proof.
  induction t as [|[m u] t IH]; simpl.
  - by rewrite String.eqb_refl.
  - destruct (String.eqb_spec m n) as [->|]; simpl.
    + by rewrite String.eqb_refl.
    + destruct (String.eqb_spec m n); [done|]. apply IH.
Qed.

Lemma lookup_set_ne n m v t : m ≠ n → lookup_name m (set_name n v t) = lookup_name m t.
Proof.
  intros Hne. induction t as [|[k u] t IH]; simpl.
  - destruct (String.eqb_spec n m); [congruence|done].
  - destruct (String.eqb_spec k n) as [->|]; simpl.
    + destruct (String.eqb_spec n m); [congruence|done].
    + destruct (String.eqb_spec k m); [done|]. apply IH.
Qed.

Lemma set_name_not_nil n v t : set_name n v t ≠ [].
Proof. destruct t as [|[m u] t]; simpl; [done|]. by destruct (String.eqb m n). Qed.

Lemma set_name_Forall (P : string * node → Prop) n v t :
  Forall P t → P (n, v) → Forall P (set_name n v t).
Proof.
  intros Ht Hv. induction Ht as [|[m u] t Hm Ht IH]; simpl.
  - by constructor.
  - destruct (String.eqb m n); by constructor.
Qed.

Lemma set_name_names k n v t : k ∈ (set_name n v t).*1 ↔ k = n ∨ k ∈ t.*1.
Proof.
  induction t as [|[m u] t IH]; simpl.
  - rewrite list_elem_of_singleton. split; [auto|]. intros [|H]; [done|].
    by apply elem_of_nil in H.
  - destruct (String.eqb_spec m n) as [->|Hne]; simpl.
    + rewrite !elem_of_cons. tauto.
    + rewrite !elem_of_cons, IH. tauto.
Qed.

Lemma set_name_NoDup n v t : NoDup t.*1 → NoDup (set_name n v t).*1.
Proof.
  induction t as [|[m u] t IH]; simpl.
  - intros _. apply NoDup_singleton.
  - intros Hnd. apply NoDup_cons in Hnd as [Hm Hnd].
    destruct (String.eqb_spec m n) as [->|Hne]; simpl.
    + by apply NoDup_cons.
    + apply NoDup_cons. split; [|auto].
      rewrite set_name_names. intros [|]; congruence || done.
Qed.

Lemma wf_set_name n v t : wf (Dir t) → wf v → wf (Dir (set_name n v t)).
Proof.
  intros Ht Hv. inversion Ht as [|es Hnd Hall]; subst.
  constructor; [by apply set_name_NoDup|by apply set_name_Forall].
Qed.

Lemma wf_lookup n v t : wf (Dir t) → lookup_name n t = Some v → wf v.
Proof.
  intros Ht Hl. inversion Ht as [|es Hnd Hall]; subst.
  apply lookup_name_elem in Hl. rewrite Forall_forall in Hall.
  apply (Hall (n, v)). done.
Qed.

Lemma wf_nil : wf (Dir []).
Proof. constructor; [apply NoDup_nil_2|constructor]. Qed.

(** ** Paths *)

Lemma get_nil p : get p [] = None.
Proof. destruct p as [|n [|m p]]; done. Qed.

Lemma get_one n t : get [n] t = lookup_name n t.
Proof. done. Qed.

Lemma get_cons n m p t :
  get (n :: m :: p) t
  = match lookup_name n t with
    | Some (Dir sub) => get (m :: p) sub
    | _ => None
    end.
Proof. done. Qed.

(** Below a regular file there is nothing. *)
Lemma get_below_file p r c t :
  get p t = Some (File c) → r ≠ [] → get (p ++ r) t = None.
Proof.
  revert t. induction p as [|n p IH]; intros t; [done|].
  destruct p as [|m p].
  - rewrite get_one. intros Hl Hr. destruct r as [|k r]; [done|].
    simpl app. rewrite get_cons, Hl. done.
  - rewrite get_cons. destruct (lookup_name n t) as [[|sub]|] eqn:E; try done.
    intros Hg Hr. change ((n :: m :: p) ++ r) with (n :: (m :: p) ++ r).
    simpl app. rewrite get_cons, E. apply (IH sub Hg Hr).
Qed.

Lemma files_apart p q t : is_file_path p t → is_file_path q t → apart p q.
Proof.
  intros [c Hp] [d Hq]. split; intros (r & Hr & ->).
  - by rewrite (get_below_file _ _ _ _ Hp Hr) in Hq.
  - by rewrite (get_below_file _ _ _ _ Hq Hr) in Hp.
Qed.

(** ** Writing one file *)

Lemma write_file_one n c t :
  write_file [n] c t
  = match lookup_name n t with
    | Some (Dir _) => None
    | _ => Some (set_name n (File c) t)
    end.
Proof. done. Qed.

Lemma write_file_cons n m p c t :
  write_file (n :: m :: p) c t
  = match lookup_name n t with
    | Some (File _) => None
    | Some (Dir sub) =>
        sub' ← write_file (m :: p) c sub; Some (set_name n (Dir sub') t)
    | None =>
        sub' ← write_file (m :: p) c []; Some (set_name n (Dir sub') t)
    end.
Proof. done. Qed.

Lemma write_file_not_nil p c t t' : write_file p c t = Some t' → t' ≠ [].
Proof.
  destruct p as [|n [|m p]]; [done|..].
  - rewrite write_file_one. destruct (lookup_name n t) as [[]|]; intros [= <-];
      apply set_name_not_nil.
  - rewrite write_file_cons.
    destruct (lookup_name n t) as [[|sub]|]; [done|..];
      (destruct (write_file (m :: p) c _); [|done]); intros [= <-];
      apply set_name_not_nil.
Qed.

Lemma write_file_get_same p c t t' :
  write_file p c t = Some t' → get p t' = Some (File c).
Proof.
  revert t t'. induction p as [|n p IH]; intros t t'; [done|].
  destruct p as [|m p].
  - rewrite write_file_one, get_one.
    destruct (lookup_name n t) as [[]|]; intros [= <-]; apply lookup_set_eq.
  - rewrite write_file_cons, get_cons.
    destruct (lookup_name n t) as [[|sub]|]; [done|..];
      (destruct (write_file (m :: p) c _) as [sub'|] eqn:E; [|done]);
      intros [= <-]; rewrite lookup_set_eq; by eapply IH.
Qed.

Lemma write_file_get_other p q c d t t' :
  write_file p c t = Some t' → q ≠ p →
  get q t' = Some (File d) ↔ get q t = Some (File d).
Proof.
  revert q t t'. induction p as [|n p IH]; intros q t t'; [done|].
  destruct p as [|m p].
  - rewrite write_file_one. intros Hw Hq.
    assert (t' = set_name n (File c) t ∧ ∀ sub, lookup_name n t ≠ Some (Dir sub))
      as [-> Hnd].
    { destruct (lookup_name n t) as [[]|]; [| done |]; injection Hw as <-; done. }
    destruct q as [|k [|k' q]]; [done|..].
    + rewrite !get_one. rewrite lookup_set_ne by congruence. done.
    + rewrite !get_cons. destruct (decide (k = n)) as [->|Hk].
      * rewrite lookup_set_eq.
        destruct (lookup_name n t) as [[|sub]|] eqn:E; [done| |done].
        by destruct (Hnd sub).
      * by rewrite lookup_set_ne.
  - rewrite write_file_cons. intros Hw Hq.
    assert (∃ sub sub', write_file (m :: p) c sub = Some sub'
              ∧ t' = set_name n (Dir sub') t
              ∧ (lookup_name n t = Some (Dir sub)
                 ∨ (lookup_name n t = None ∧ sub = [])))
      as (sub & sub' & Hsub & -> & Hl).
    { destruct (lookup_name n t) as [[|sub]|]; [done|..];
        (destruct (write_file (m :: p) c _) as [sub'|] eqn:E; [|done]);
        injection Hw as <-; [exists sub, sub'|exists [], sub']; auto. }
    destruct q as [|k [|k' q]]; [done|..].
    + rewrite !get_one. destruct (decide (k = n)) as [->|Hk].
      * rewrite lookup_set_eq. destruct Hl as [Hl|[Hl _]]; rewrite Hl; done.
      * by rewrite lookup_set_ne.
    + rewrite !get_cons. destruct (decide (k = n)) as [->|Hk].
      * rewrite lookup_set_eq.
        rewrite (IH (k' :: q) sub sub' Hsub) by congruence.
        destruct Hl as [Hl|[Hl ->]]; rewrite Hl; [done|]. by rewrite get_nil.
      * by rewrite lookup_set_ne.
Qed.

Lemma write_file_wf p c t t' :
  wf (Dir t) → write_file p c t = Some t' → wf (Dir t').
Proof.
  revert t t'. induction p as [|n p IH]; intros t t' Hwf; [done|].
  destruct p as [|m p].
  - rewrite write_file_one.
    destruct (lookup_name n t) as [[]|]; intros [= <-];
      apply wf_set_name; done || constructor.
  - rewrite write_file_cons.
    destruct (lookup_name n t) as [[|sub]|] eqn:E; [done|..];
      (destruct (write_file (m :: p) c _) as [sub'|] eqn:Es; [|done]);
      intros [= <-]; apply wf_set_name; try done.
    + eapply IH; [|done]. by eapply wf_lookup.
    + eapply IH; [|done]. apply wf_nil.
Qed.

(** ** Directories that are not empty *)

Lemma all_populated_lookup n sub t :
  all_populated t → lookup_name n t = Some (Dir sub) →
  sub ≠ [] ∧ all_populated sub.
Proof.
  intros Ht Hl. apply lookup_name_elem in Hl.
  unfold all_populated in Ht. rewrite Forall_forall in Ht.
  specialize (Ht _ Hl). simpl in Ht. by inversion Ht.
Qed.

Lemma write_file_populated p c t t' :
  all_populated t → write_file p c t = Some t' → all_populated t'.
Proof.
  revert t t'. induction p as [|n p IH]; intros t t' Hpop; [done|].
  destruct p as [|m p].
  - rewrite write_file_one.
    destruct (lookup_name n t) as [[]|]; intros [= <-];
      apply set_name_Forall; done || constructor.
  - rewrite write_file_cons.
    destruct (lookup_name n t) as [[|sub]|] eqn:E; [done|..];
      (destruct (write_file (m :: p) c _) as [sub'|] eqn:Es; [|done]);
      intros [= <-]; apply set_name_Forall; try done; simpl.
    + constructor; [by eapply write_file_not_nil|].
      eapply IH; [|done]. by eapply all_populated_lookup.
    + constructor; [by eapply write_file_not_nil|].
      eapply IH; [|done]. constructor.
Qed.

Lemma populated_has_file v :
  populated v → ∀ es, v = Dir es → ∃ q, is_file_path q es.
Proof.
  induction v as [c|es IH] using node_ind'; [done|].
  intros Hpop ? [= <-]. inversion Hpop as [|? Hne Hall]; subst.
  destruct es as [|[m v] es]; [done|].
  apply Forall_cons in IH as [IHv _]. apply Forall_cons in Hall as [Hv _].
  simpl in *. destruct v as [c|sub].
  - exists [m]. exists c. rewrite get_one. simpl. by rewrite String.eqb_refl.
  - destruct (IHv Hv sub eq_refl) as (q & d & Hq).
    destruct q as [|k q]; [done|].
    exists (m :: k :: q), d. rewrite get_cons. simpl. by rewrite String.eqb_refl.
Qed.

(** A file can be written where no file is in the way and no directory
    has its name. *)
Lemma write_file_succeeds p c t :
  p ≠ [] → all_populated t →
  (∀ q, is_file_path q t → apart p q) →
  is_Some (write_file p c t).
Proof.
  revert t. induction p as [|n p IH]; intros t Hp Hpop Hap; [done|].
  destruct p as [|m p].
  - rewrite write_file_one. destruct (lookup_name n t) as [[|sub]|] eqn:E; [done| |done].
    destruct (all_populated_lookup _ _ _ Hpop E) as [Hne Hsub].
    destruct (populated_has_file (Dir sub)) with (es := sub) as (q & d & Hq);
      [by constructor|done|].
    destruct q as [|k q]; [done|].
    destruct (Hap (n :: k :: q)) as [Hbelow _].
    { exists d. destruct q; [by rewrite get_cons, E, get_one in *|by rewrite get_cons, E]. }
    destruct Hbelow. by exists (k :: q).
  - rewrite write_file_cons. destruct (lookup_name n t) as [[d|sub]|] eqn:E.
    + destruct (Hap [n]) as [_ Hbelow]; [by exists d|].
      destruct Hbelow. by exists (m :: p).
    + destruct (all_populated_lookup _ _ _ Hpop E) as [_ Hsub].
      destruct (IH sub) as [sub' ->]; [done|done| |done].
      intros q [d Hq]. destruct q as [|k q]; [done|].
      destruct (Hap (n :: k :: q)) as [H1 H2]; [exists d; by rewrite get_cons, E|].
      split; intros (r & Hr & Er).
      * apply H1. exists r. split; [done|]. simpl. by rewrite Er.
      * apply H2. exists r. split; [done|]. simpl. by rewrite Er.
    + destruct (IH []) as [sub' ->]; [done|constructor| |done].
      intros q [d Hq]. by rewrite get_nil in Hq.
Qed.

Lemma write_file_paths p q c t t' :
  write_file p c t = Some t' →
  is_file_path q t' ↔ q = p ∨ is_file_path q t.
Proof.
  intros Hw. destruct (decide (q = p)) as [->|Hq].
  - split; [auto|]. intros _. exists c. by eapply write_file_get_same.
  - unfold is_file_path. split.
    + intros [d Hd]. right. exists d.
      by apply (write_file_get_other p q c d t t' Hw Hq).
    + intros [|[d Hd]]; [done|]. exists d.
      by apply (write_file_get_other p q c d t t' Hw Hq).
Qed.

(** ** Extracting an archive *)

Lemma extractall_cons p c a t :
  extractall ((p, c) :: a) t
  = match write_file p c t with
    | Some t' => extractall a t'
    | None => (t, false)
    end.
Proof. done. Qed.

Lemma extractall_ok a t t' :
  extractall a t = (t', true) → wf (Dir t) →
  wf (Dir t')
  ∧ (all_populated t → all_populated t')
  ∧ ∀ q, is_file_path q t' ↔ q ∈ a.*1 ∨ is_file_path q t.
Proof.
  revert t. induction a as [|[p c] a IH]; intros t.
  - intros [= <-] Hwf. split; [done|]. split; [done|]. intros q.
    split; [auto|]. intros [H|]; [by apply elem_of_nil in H|done].
  - rewrite extractall_cons. destruct (write_file p c t) as [t1|] eqn:Hw; [|done].
    intros Hex Hwf.
    destruct (IH t1 Hex) as (Hwf' & Hpop' & Hfiles); [by eapply write_file_wf|].
    split; [done|]. split.
    + intros Hpop. apply Hpop'. by eapply write_file_populated.
    + intros q. rewrite Hfiles, (write_file_paths p q c t t1 Hw).
      rewrite fmap_cons, elem_of_cons. simpl. tauto.
Qed.

Lemma extractall_succeeds a t :
  wf (Dir t) → all_populated t →
  (∀ p, p ∈ a.*1 → p ≠ []) →
  (∀ p q, p ∈ a.*1 → q ∈ a.*1 ∨ is_file_path q t → apart p q) →
  ∃ t', extractall a t = (t', true).
Proof.
  revert t. induction a as [|[p c] a IH]; intros t Hwf Hpop Hne Hap.
  - by exists t.
  - rewrite extractall_cons.
    destruct (write_file_succeeds p c t) as [t1 Hw].
    { apply Hne. rewrite fmap_cons. left. }
    { done. }
    { intros q Hq. apply Hap; [rewrite fmap_cons; left|by right]. }
    rewrite Hw. apply IH.
    + by eapply write_file_wf.
    + by eapply write_file_populated.
    + intros p' Hp'. apply Hne. rewrite fmap_cons. by right.
    + intros p' q Hp' Hq. apply Hap; [rewrite fmap_cons; by right|].
      rewrite fmap_cons, elem_of_cons. simpl.
      rewrite (write_file_paths p q c t t1 Hw) in Hq. tauto.
Qed.

(** ** Walking a tree *)

Lemma elem_of_walk v : wf v → ∀ rel p c,
  (p, c) ∈ walk rel v ↔
  ∃ es q, v = Dir es ∧ p = rel ++ q ∧ get q es = Some (File c).
Proof.
  induction v as [c'|es IH] using node_ind'; intros Hwf rel p c.
  - simpl. split; [intros H; by apply elem_of_nil in H|]. by intros (? & ? & ? & _).
  - inversion Hwf as [|? Hnd Hall]; subst. simpl.
    rewrite elem_of_app, !list_elem_of_bind. split.
    + intros [([m v] & Hin & Hm)|([m v] & Hin & Hm)]; simpl in *.
      * destruct v as [d|sub]; [|by apply elem_of_nil in Hin].
        apply list_elem_of_singleton in Hin as [= -> ->].
        exists es, [m]. split; [done|]. split; [done|].
        rewrite get_one. by apply elem_lookup_name.
      * rewrite Forall_forall in IH, Hall.
        apply (IH _ Hm (Hall _ Hm)) in Hin as (sub & q & Hv & -> & Hq).
        simpl in Hv. subst v.
        exists es, (m :: q). split; [done|]. split; [by rewrite <- app_assoc|].
        destruct q as [|k q]; [done|].
        rewrite get_cons. by rewrite (elem_lookup_name m (Dir sub) es).
    + intros (? & q & [= <-] & -> & Hq).
      destruct q as [|m [|k q]]; [done|..].
      * left. exists (m, File c). rewrite get_one in Hq.
        split; [simpl; left|by apply lookup_name_elem].
      * right. rewrite get_cons in Hq.
        destruct (lookup_name m es) as [[|sub]|] eqn:E; try done.
        apply lookup_name_elem in E. exists (m, Dir sub). split; [|done].
        rewrite Forall_forall in IH, Hall.
        apply (IH _ E (Hall _ E)). exists sub, (k :: q).
        split; [done|]. split; [by rewrite <- app_assoc|done].
Qed.

Lemma walk_names v : wf v → ∀ rel p,
  p ∈ (walk rel v).*1 ↔ ∃ es q, v = Dir es ∧ p = rel ++ q ∧ is_file_path q es.
Proof.
  intros Hwf rel p. rewrite list_elem_of_fmap. split.
  - intros ([p' c] & -> & Hin). apply elem_of_walk in Hin as (es & q & ? & ? & ?); [|done].
    exists es, q. split; [done|]. split; [done|]. by exists c.
  - intros (es & q & -> & -> & c & Hq). exists (rel ++ q, c). split; [done|].
    apply elem_of_walk; [done|]. by exists es, q.
Qed.

Lemma entry_unique (x y : string * node) t :
  NoDup t.*1 → x ∈ t → y ∈ t → x.1 = y.1 → x = y.
Proof.
  destruct x as [n v], y as [m u]. simpl. intros Hnd Hx Hy <-.
  apply (elem_lookup_name _ _ _ Hnd) in Hx, Hy. congruence.
Qed.

Lemma fmap_bind_fst {A} (f : A → archive) (l : list A) :
  (l ≫= f).*1 = l ≫= λ x, (f x).*1.
Proof. induction l as [|x l IH]; csimpl; [done|]. by rewrite fmap_app, IH. Qed.

Lemma is_file_path_not_nil q t : is_file_path q t → q ≠ [].
Proof. intros [c Hc] ->. done. Qed.

Lemma walk_NoDup v : wf v → ∀ rel, NoDup (walk rel v).*1.
Proof.
  induction v as [c'|es IH] using node_ind'; intros Hwf rel.
  - simpl. apply NoDup_nil_2.
  - inversion Hwf as [|? Hnd Hall]; subst. simpl.
    rewrite Forall_forall in IH, Hall.
    rewrite fmap_app, !fmap_bind_fst. apply NoDup_app. split_and!.
    + apply NoDup_bind; [| |by apply NoDup_fmap_1 in Hnd].
      * intros [m v] [m' v'] p Hx Hx'. simpl.
        destruct v; [|intros H; by apply elem_of_nil in H].
        destruct v'; [|intros _ H; by apply elem_of_nil in H].
        simpl. rewrite !list_elem_of_singleton. intros -> E.
        apply app_inv_head in E. injection E as <-.
        by apply (entry_unique _ _ es).
      * intros [m v] _. simpl. destruct v; simpl; [apply NoDup_singleton|apply NoDup_nil_2].
    + intros p Hp1 Hp2.
      apply list_elem_of_bind in Hp1 as ([m v] & Hp1 & Hin1).
      apply list_elem_of_bind in Hp2 as ([m' v'] & Hp2 & Hin2). simpl in *.
      destruct v; [|by apply elem_of_nil in Hp1].
      simpl in Hp1. apply list_elem_of_singleton in Hp1 as ->.
      apply walk_names in Hp2 as (es' & q & -> & E & Hq); [|by apply (Hall _ Hin2)].
      apply is_file_path_not_nil in Hq.
      apply (f_equal length) in E. rewrite !length_app in E. simpl in E.
      destruct q; [done|]. simpl in E. lia.
    + apply NoDup_bind; [| |by apply NoDup_fmap_1 in Hnd].
      * intros [m v] [m' v'] p Hx Hx' Hp Hp'. simpl in *.
        apply walk_names in Hp as (es1 & q1 & -> & E1 & Hq1); [|by apply (Hall _ Hx)].
        apply walk_names in Hp' as (es2 & q2 & -> & E2 & Hq2); [|by apply (Hall _ Hx')].
        rewrite E1 in E2. rewrite <- !app_assoc in E2.
        apply app_inv_head in E2. injection E2 as -> _.
        by apply (entry_unique _ _ es).
      * intros [m v] Hin. simpl. apply (IH _ Hin). apply (Hall _ Hin).
Qed.

(** ** Extracting what a walk has archived *)

Lemma extract_walk t :
  wf (Dir t) →
  ∃ t', extractall (walk [] (Dir t)) [] = (t', true)
        ∧ wf (Dir t')
        ∧ ∀ q, is_file_path q t' ↔ is_file_path q t.
Proof.
  intros Hwf.
  assert (∀ p, p ∈ (walk [] (Dir t)).*1 ↔ is_file_path p t) as Hnames.
  { intros p. rewrite walk_names by done. split.
    - by intros (? & q & [= <-] & -> & Hq).
    - intros Hp. by exists t, p. }
  destruct (extractall_succeeds (walk [] (Dir t)) []) as [t' Hex].
  - apply wf_nil.
  - constructor.
  - intros p Hp. apply Hnames in Hp. by eapply is_file_path_not_nil.
  - intros p q Hp [Hq|[c Hq]]; [|by rewrite get_nil in Hq].
    apply Hnames in Hp, Hq. by eapply files_apart.
  - exists t'. split; [done|].
    destruct (extractall_ok _ _ _ Hex wf_nil) as (Hwf' & _ & Hfiles).
    split; [done|]. intros q. rewrite Hfiles, Hnames.
    split; [intros [|[c Hq]]; [done|by rewrite get_nil in Hq]|auto].
Qed.

End tree.

(** * Running the script step by step

    Every step of the transformer, of the publisher and of the clean-up
    takes a world [after w fs tr] to a world of the same form. *)

Section steps.
Context (w : world).
Implicit Types (fs : gmap string fobj) (tr : list event) (p : string).

Lemma after_start : w = after w (w_fs w) [].
Proof. destruct w. unfold after. simpl. by rewrite app_nil_r. Qed.

Lemma emit_after e fs tr : emit e (after w fs tr) = after w fs (tr ++ [e]).
Proof. unfold emit, after. simpl. by rewrite <- app_assoc. Qed.

Lemma log_message_run m fs tr :
  log_message m (after w fs tr) = (Ok (), after w fs (tr ++ [Log m])).
Proof. unfold log_message, record. by rewrite emit_after. Qed.

Lemma os_path_exists_run p fs tr :
  os_path_exists p (after w fs tr)
  = (Ok (bool_decide (is_Some (fs !! p))),
     after w fs (tr ++ [PathExists p (bool_decide (is_Some (fs !! p)))])).
Proof. unfold os_path_exists. run_unfold. cbn. by rewrite emit_after. Qed.

Lemma os_makedirs_run p fs tr :
  os_makedirs p (after w fs tr)
  = match fs !! p with
    | Some _ => (Raised FileExistsError, after w fs tr)
    | None => (Ok (), after w (<[p := FDir []]> fs) tr)
    end.
Proof. unfold os_makedirs. run_unfold. cbn. by destruct (fs !! p). Qed.

Lemma shutil_rmtree_run p fs tr :
  shutil_rmtree p (after w fs tr)
  = match fs !! p with
    | Some (FDir _) => (Ok (), after w (delete p fs) tr)
    | Some _ => (Raised NotADirectoryError, after w fs tr)
    | None => (Raised FileNotFoundError, after w fs tr)
    end.
Proof. unfold shutil_rmtree. run_unfold. cbn. by destruct (fs !! p) as [[]|]. Qed.

Lemma os_remove_run p fs tr :
  os_remove p (after w fs tr)
  = match fs !! p with
    | Some (FDir _) => (Raised IsADirectoryError, after w fs tr)
    | Some _ => (Ok (), after w (delete p fs) tr)
    | None => (Raised FileNotFoundError, after w fs tr)
    end.
Proof. unfold os_remove. run_unfold. cbn. by destruct (fs !! p) as [[]|]. Qed.

Lemma os_listdir_run p fs tr :
  os_listdir p (after w fs tr)
  = match fs !! p with
    | Some (FDir t) => (Ok (listdir t), after w fs tr)
    | Some _ => (Raised NotADirectoryError, after w fs tr)
    | None => (Raised FileNotFoundError, after w fs tr)
    end.
Proof. unfold os_listdir. run_unfold. cbn. by destruct (fs !! p) as [[]|]. Qed.

Lemma zip_extractall_run p folder fs tr :
  zip_extractall p folder (after w fs tr)
  = match fs !! p with
    | Some (FZip a) =>
        match fs !! folder with
        | Some (FDir t) =>
            (if (extractall a t).2 then Ok () else Raised FileExistsError,
             after w (<[folder := FDir (extractall a t).1]> fs) tr)
        | Some _ => (Raised NotADirectoryError, after w fs tr)
        | None => (Raised FileNotFoundError, after w fs tr)
        end
    | Some (FData _) => (Raised BadZipFile, after w fs tr)
    | Some (FDir _) => (Raised IsADirectoryError, after w fs tr)
    | None => (Raised FileNotFoundError, after w fs tr)
    end.
Proof.
  unfold zip_extractall. run_unfold. cbn.
  destruct (fs !! p) as [[a| |]|]; try done.
  destruct (fs !! folder) as [[| |t]|]; try done.
  by destruct (extractall a t) as [t' []].
Qed.

Lemma read_text_run folder file fs tr :
  read_text folder file (after w fs tr)
  = match fs !! folder with
    | Some (FDir t) =>
        match lookup_name file t with
        | Some (File (Text s)) => (Ok (universal_newlines s), after w fs tr)
        | Some (File (Binary _)) => (Raised UnicodeDecodeError, after w fs tr)
        | Some (Dir _) => (Raised IsADirectoryError, after w fs tr)
        | None => (Raised FileNotFoundError, after w fs tr)
        end
    | _ => (Raised FileNotFoundError, after w fs tr)
    end.
Proof.
  unfold read_text. run_unfold. cbn.
  destruct (fs !! folder) as [[| |t]|]; try done.
  by destruct (lookup_name file t) as [[[]|]|].
Qed.

Lemma write_text_run pl folder file text fs tr :
  write_text pl folder file text (after w fs tr)
  = match fs !! folder with
    | Some (FDir t) =>
        match lookup_name file t with
        | Some (Dir _) => (Raised IsADirectoryError, after w fs tr)
        | _ =>
            (Ok (),
             after w (<[folder :=
                         FDir (set_name file
                                 (File (Text (translate_newlines (os_linesep pl) text)))
                                 t)]> fs) tr)
        end
    | _ => (Raised FileNotFoundError, after w fs tr)
    end.
Proof.
  unfold write_text. run_unfold. cbn.
  destruct (fs !! folder) as [[| |t]|]; try done.
  by destruct (lookup_name file t) as [[|]|].
Qed.

Lemma zip_create_run p fs tr :
  zip_create p (after w fs tr)
  = match fs !! p with
    | Some (FDir _) => (Raised IsADirectoryError, after w fs tr)
    | _ => (Ok (), after w (<[p := FZip []]> fs) tr)
    end.
Proof. unfold zip_create. run_unfold. cbn. by destruct (fs !! p) as [[]|]. Qed.

Lemma zip_write_tree_run p folder fs tr :
  zip_write_tree p folder (after w fs tr)
  = match fs !! folder with
    | Some (FDir t) =>
        match fs !! p with
        | Some (FZip a) => (Ok (), after w (<[p := FZip (a ++ walk [] (Dir t))]> fs) tr)
        | _ => (Raised FileNotFoundError, after w fs tr)
        end
    | _ => (Ok (), after w fs tr)
    end.
Proof.
  unfold zip_write_tree. run_unfold. cbn.
  destruct (fs !! folder) as [[| |t]|]; try done.
  by destruct (fs !! p) as [[]|].
Qed.

Lemma sign_in_run url fs tr :
  sign_in url (after w fs tr)
  = if r_sign_in (w_servers w url)
    then (Ok (), after w fs (tr ++ [SignedIn url]))
    else (Raised ServerError, after w fs tr).
Proof.
  unfold sign_in. run_unfold. cbn. destruct (r_sign_in _); [|done].
  by rewrite emit_after.
Qed.

Lemma sign_out_run url fs tr :
  sign_out url (after w fs tr)
  = (if r_sign_out (w_servers w url) then Ok () else Raised ServerError,
     after w fs (tr ++ [SignOut url])).
Proof.
  unfold sign_out. run_unfold. cbn. rewrite emit_after. by destruct (r_sign_out _).
Qed.

Lemma workbooks_publish_run url proj_id name twbx fs tr :
  workbooks_publish url proj_id name twbx (after w fs tr)
  = match r_publish (w_servers w url) proj_id name with
    | Some item => (Ok item, after w fs tr)
    | None => (Raised ServerError, after w fs tr)
    end.
Proof. unfold workbooks_publish. run_unfold. cbn. by destruct (r_publish _ _ _). Qed.

Lemma authenticate_run env fs tr :
  authenticate env (after w fs tr)
  = match ENVIRONMENTS !! env with
    | None => (Ok None, after w fs (tr ++ [Log (MEnvNotFound env)]))
    | Some e =>
        if r_sign_in (w_servers w (server_url e))
        then (Ok (Some (server_url e)),
              after w fs (tr ++ [SignedIn (server_url e);
                                 Log (MAuthenticated env (server_url e))]))
        else (Raised ServerError, after w fs tr)
    end.
Proof.
  destruct (ENVIRONMENTS !! env) as [e|] eqn:E.
  - rewrite (authenticate_known _ e) by done. cbn [w_servers after].
    destruct (r_sign_in _); [|done]. rewrite !emit_after. by rewrite <- app_assoc.
  - rewrite authenticate_unknown by done. by rewrite emit_after.
Qed.

Lemma find_project_by_name_after server name fs tr :
  find_project_by_name server name (after w fs tr)
  = match r_projects_get (w_servers w server) with
    | None => (Raised ServerError, after w fs tr)
    | Some ps =>
        match List.find (name_matches (requested name)) ps with
        | Some p =>
            (Ok (Some p),
             after w fs (tr ++ [Log (MFoundProject (proj_name p) (proj_id p))]))
        | None => (Ok None, after w fs tr)
        end
    end.
Proof.
  destruct (r_projects_get _) as [ps|] eqn:E.
  - rewrite (find_project_by_name_run _ _ _ ps) by done.
    destruct (List.find _ ps); [|done]. cbn [found_project]. by rewrite emit_after.
  - by rewrite find_project_by_name_raises.
Qed.
End steps.

(** ** The transformer *)

Ltac run_step :=
  first
    [ rewrite bind_run
    | rewrite log_message_run
    | rewrite os_path_exists_run
    | rewrite os_makedirs_run
    | rewrite shutil_rmtree_run
    | rewrite os_remove_run
    | rewrite os_listdir_run
    | rewrite zip_extractall_run
    | rewrite read_text_run
    | rewrite write_text_run
    | rewrite zip_create_run
    | rewrite zip_write_tree_run
    | rewrite sign_in_run
    | rewrite sign_out_run
    | rewrite workbooks_publish_run
    | rewrite authenticate_run
    | rewrite find_project_by_name_after
    | rewrite lookup_insert_eq
    | rewrite lookup_delete_eq
    | progress unfold attempt
    | progress unfold mret, M_ret, mthrow, M_throw
    | progress cbn [mret M_ret mthrow M_throw fst snd negb]
    | progress cbv beta iota ].

Ltac run := repeat run_step.

(** Where the run depends on the disk or on the servers: by cases. *)
Ltac split_step :=
  match goal with
  | H : w_servers ?a = _ |- context [w_servers ?a] =>
      rewrite H; cbn [w_servers after]
  | H : @lookup _ _ _ _ ?p ?fs = _ |- context [@lookup _ _ _ _ ?p ?fs] => rewrite H
  | H : ¬ is_Some (@lookup _ _ _ _ ?p ?fs) |- context [@lookup _ _ _ _ ?p ?fs] =>
      rewrite (proj2 (eq_None_not_Some _) H)
  | H : find_twb_file ?l = _ |- context [find_twb_file ?l] => rewrite H
  | H : extractall ?a ?t = _ |- context [extractall ?a ?t] => rewrite H
  | |- context [decide (?a = ?b)] =>
      destruct (decide (a = b)) as [->| ?]; try congruence
  | |- context [bool_decide (is_Some (@lookup _ _ _ _ ?p (delete _ _)))] =>
      rewrite lookup_delete
  | |- context [bool_decide (is_Some (@lookup _ _ _ _ ?p (insert _ _ _)))] =>
      rewrite lookup_insert
  | |- context [bool_decide ?P] =>
      let Hbd := fresh "Hbd" in
      case_bool_decide as Hbd;
      [ try (exfalso; apply is_Some_None in Hbd; exact Hbd)
      | try (exfalso; apply Hbd; eauto; fail) ]
  | |- context [match @lookup _ _ _ _ ?p (insert _ _ _) with _ => _ end] =>
      rewrite lookup_insert
  | |- context [match @lookup _ _ _ _ ?p (delete _ _) with _ => _ end] =>
      rewrite lookup_delete
  | |- context [match @lookup _ _ _ _ ?p ?fs with _ => _ end] =>
      let E := fresh "Hfs" in destruct (@lookup _ _ _ _ p fs) as [[| |]|] eqn:E
  | |- context [match lookup_name ?f ?t with _ => _ end] =>
      let E := fresh "Hname" in destruct (lookup_name f t) as [[[|]|]|] eqn:E
  | |- context [extractall ?a ?t] =>
      let E := fresh "Hex" in destruct (extractall a t) as [? []] eqn:E
  | |- context [match find_twb_file ?l with _ => _ end] =>
      let E := fresh "Htwb" in destruct (find_twb_file l) eqn:E
  | |- context [contains ?s ?f] =>
      let E := fresh "Hfind" in destruct (contains s f) eqn:E
  | H : ENVIRONMENTS !! ?env = _ |- context [ENVIRONMENTS !! ?env] => rewrite H
  | H : r_sign_in ?s = _ |- context [r_sign_in ?s] => rewrite H
  | H : r_sign_out ?s = _ |- context [r_sign_out ?s] => rewrite H
  | H : r_projects_get ?s = _ |- context [r_projects_get ?s] => rewrite H
  | |- context [match ENVIRONMENTS !! ?env with _ => _ end] =>
      let E := fresh "Henv" in destruct (ENVIRONMENTS !! env) eqn:E
  | |- context [r_sign_in ?s] =>
      let E := fresh "Hin" in destruct (r_sign_in s) eqn:E
  | |- context [r_sign_out ?s] =>
      let E := fresh "Hout" in destruct (r_sign_out s) eqn:E
  | |- context [match r_projects_get ?s with _ => _ end] =>
      let E := fresh "Hps" in destruct (r_projects_get s) eqn:E
  | |- context [match List.find ?f ?l with _ => _ end] =>
      let E := fresh "Hproj" in destruct (List.find f l) eqn:E
  | |- context [match r_publish ?s ?a ?b with _ => _ end] =>
      let E := fresh "Hpub" in destruct (r_publish s a b) eqn:E
  end.

Ltac explore := repeat (run_step || split_step).

(** Start a run of [f] from [w] in the form [after w (w_fs w) []]. *)
Ltac start_run w :=
  match goal with
  | |- context C [?f w] =>
      lazymatch type of f with
      | M _ =>
          let G := context C [f (after w (w_fs w) [])] in
          let HG := fresh in
          enough G as HG by (by rewrite <- after_start in HG)
      end
  end.

Section transformer.
Context (pl : platform).

Lemma modify_success twbx wb find repl w m w' :
  modify_and_repackage_workbook pl twbx wb find repl w = (Ok (Some m), w') →
  ∃ a t file raw,
    w_fs w !! twbx = Some (FZip a)
    ∧ twbx ≠ extract_folder pl wb
    ∧ modified_path pl wb ≠ extract_folder pl wb
    ∧ extractall a [] = (t, true)
    ∧ find_twb_file (listdir t) = Some file
    ∧ lookup_name file t = Some (File (Text raw))
    ∧ m = modified_path pl wb
    ∧ w_fs w' !! modified_path pl wb
      = Some (FZip (walk [] (Dir (set_name file (File (rewritten pl find repl raw)) t))))
    ∧ w_fs w' !! extract_folder pl wb = None
    ∧ (∀ q, q ≠ modified_path pl wb → q ≠ extract_folder pl wb →
            w_fs w' !! q = w_fs w !! q)
    ∧ w_servers w' = w_servers w.
Proof.
  unfold modify_and_repackage_workbook.
  fold (extract_folder pl wb). fold (modified_path pl wb).
  set (ef := extract_folder pl wb). set (mp := modified_path pl wb).
  rewrite (after_start w) at 1. generalize (w_fs w) as fs. intros fs.
  clearbody ef mp.
  explore; try (intros [=]; fail).
  all: intros [= <- <-]; simplify_eq;
    eexists _, _, _, _; split_and!; try done; cbn [w_fs after];
    try (intros q Hq1 Hq2); simplify_map_eq; done.
Qed.

(** C8.  When the transformer succeeds, extracting the archive it has
    produced gives the regular files of the paths of the input archive,
    no more and no fewer, and no path is twice in the produced
    archive. *)
Theorem repackaged_paths_round_trip twbx wb find repl w m w' a :
  modify_and_repackage_workbook pl twbx wb find repl w = (Ok (Some m), w') →
  w_fs w !! twbx = Some (FZip a) →
  ∃ out t',
    w_fs w' !! m = Some (FZip out)
    ∧ extractall out [] = (t', true)
    ∧ (∀ q, is_file_path q t' ↔ q ∈ a.*1)
    ∧ NoDup out.*1.
Proof.
  intros Hrun Ha.
  apply modify_success in Hrun
    as (a' & t & file & raw & Ha' & _ & _ & Hex & _ & Hfile & -> & Hout & _).
  rewrite Ha in Ha'. injection Ha' as <-.
  destruct (extractall_ok _ _ _ Hex wf_nil) as (Hwf & _ & Hfiles).
  set (t2 := set_name file (File (rewritten pl find repl raw)) t) in *.
  assert (write_file [file] (rewritten pl find repl raw) t = Some t2) as Hw.
  { rewrite write_file_one. by rewrite Hfile. }
  assert (wf (Dir t2)) as Hwf2 by (by eapply write_file_wf).
  destruct (extract_walk t2 Hwf2) as (t' & Hex' & _ & Hfiles').
  exists (walk [] (Dir t2)), t'. split; [done|]. split; [done|]. split.
  - intros q. rewrite Hfiles', (write_file_paths _ q _ _ _ Hw), Hfiles.
    split.
    + intros [->|[|[c Hc]]]; [|done|by rewrite get_nil in Hc].
      destruct (proj1 (Hfiles [file])) as [|[c Hc]];
        [by exists (Text raw)|done|by rewrite get_nil in Hc].
    + auto.
  - by apply walk_NoDup.
Qed.

(** Which entry the transformer takes for the definition file. *)
Lemma modify_locates twbx wb find repl w a t :
  w_fs w !! twbx = Some (FZip a) →
  twbx ≠ extract_folder pl wb →
  (w_fs w !! extract_folder pl wb = None
   ∨ ∃ t0, w_fs w !! extract_folder pl wb = Some (FDir t0)) →
  extractall a [] = (t, true) →
  ∃ tr,
    w_trace (modify_and_repackage_workbook pl twbx wb find repl w).2
    = w_trace w ++ tr
    ∧ no_twb_reported tr = match find_twb_file (listdir t) with None => true | Some _ => false end
    ∧ twb_located tr = option_list (find_twb_file (listdir t)).
Proof.
  intros Ha Hne Hef Hex.
  match goal with |- ∃ tr, w_trace ?x.2 = _ ∧ _ =>
    enough (let '(r, w') := x in
            ∃ tr, w_trace w' = w_trace w ++ tr
              ∧ no_twb_reported tr = match find_twb_file (listdir t) with None => true | Some _ => false end
              ∧ twb_located tr = option_list (find_twb_file (listdir t)))
      as Hlet by (by destruct x)
  end.
  start_run w.
  unfold modify_and_repackage_workbook.
  fold (extract_folder pl wb). fold (modified_path pl wb).
  set (ef := extract_folder pl wb) in *. set (mp := modified_path pl wb).
  set (fs := w_fs w) in *. clearbody ef mp fs.
  destruct Hef as [Hef|[t0 Hef]].
  all: explore.
  all: eexists; (split; [reflexivity|]).
  all: done.
Qed.

(** The transformer reports no failure of the publisher. *)
Lemma modify_trace twbx wb find repl w :
  ∃ tr,
    w_trace (modify_and_repackage_workbook pl twbx wb find repl w).2
    = w_trace w ++ tr
    ∧ publish_failed tr = false.
Proof.
  match goal with |- ∃ tr, w_trace ?x.2 = _ ∧ _ =>
    enough (let '(r, w') := x in
            ∃ tr, w_trace w' = w_trace w ++ tr ∧ publish_failed tr = false)
      as Hlet by (by destruct x)
  end.
  start_run w.
  unfold modify_and_repackage_workbook.
  fold (extract_folder pl wb). fold (modified_path pl wb).
  set (ef := extract_folder pl wb) in *. set (mp := modified_path pl wb).
  set (fs := w_fs w) in *. clearbody ef mp fs.
  explore.
  all: eexists; (split; [reflexivity|]); done.
Qed.
End transformer.

(** ** The fetcher and the orchestrator *)

Lemma publish_failed_app tr1 tr2 :
  publish_failed (tr1 ++ tr2) = publish_failed tr1 || publish_failed tr2.
Proof. apply existsb_app. Qed.

Lemma cleanup_completed_app tr1 tr2 :
  cleanup_completed (tr1 ++ tr2) = cleanup_completed tr1 || cleanup_completed tr2.
Proof. apply existsb_app. Qed.

Lemma quiet_app tr1 tr2 : quiet tr1 → quiet tr2 → quiet (tr1 ++ tr2).
Proof.
  unfold quiet, publish_failed, transformer_ran, publisher_ran.
  rewrite !existsb_app. intros (-> & -> & ->) (-> & -> & ->). done.
Qed.

Lemma polls_of_app p tr1 tr2 : polls_of p (tr1 ++ tr2) = polls_of p tr1 + polls_of p tr2.
Proof. unfold polls_of. by rewrite List.filter_app, length_app. Qed.

Lemma seen_on_disk_app p tr1 tr2 :
  seen_on_disk p (tr1 ++ tr2) = seen_on_disk p tr1 || seen_on_disk p tr2.
Proof. apply existsb_app. Qed.

Lemma polls_of_misses p n : polls_of p (List.concat (replicate n (poll_miss p))) = n.
Proof.
  induction n as [|n IH]; [done|].
  cbn [replicate List.concat]. rewrite polls_of_app, IH.
  unfold polls_of. simpl. by rewrite String.eqb_refl.
Qed.

Section fetcher.
Context (pl : platform).

(** The facts about an early stop of the fetcher, whose events are
    explicit. *)
Ltac stop_facts :=
  eexists; cbn [w_trace emit]; rewrite <- ?app_assoc;
  split; [reflexivity|];
  split; [done|];
  split; [cbn; lia|];
  split; [done|];
  intros; simplify_eq.

Lemma wait_loop_trace p n i w :
  ∃ r w' tr,
    for_each (seq i n) (λ i,
      exists_ ← os_path_exists p;
      if exists_ : bool
      then log_message (MDownloadPresent (i + 1));; mret (Some p)
      else time_sleep 1;; mret None) w
    = (Ok r, w')
    ∧ w_trace w' = w_trace w ++ tr
    ∧ quiet tr
    ∧ polls_of p tr ≤ n
    ∧ w_servers w' = w_servers w
    ∧ (∀ d, r = Some d → d = p ∧ seen_on_disk p tr = true)
    ∧ (r = None → tr = List.concat (replicate n (poll_miss p))).
Proof.
  revert i w. induction n as [|n IH]; intros i w.
  - exists None, w, []. simpl. rewrite app_nil_r. done.
  - cbn [seq for_each]. rewrite bind_run. cbn beta. rewrite bind_run.
    unfold os_path_exists at 1. run_unfold. cbn.
    destruct (bool_decide (is_Some (w_fs w !! p))).
    + eexists _, _, _. split; [reflexivity|]. cbn. split; [by rewrite <- app_assoc|].
      split; [done|]. split.
      { unfold polls_of. simpl. rewrite String.eqb_refl. simpl. lia. }
      split; [done|]. split; [|done]. intros d [= <-]. split; [done|].
      unfold seen_on_disk. simpl. by rewrite String.eqb_refl.
    + cbn.
      set (w1 := settle _ _ _).
      destruct (IH (S i) w1)
        as (r & w' & tr & Hrun & Htr & Hq & Hpolls & Hsrv & Hr & Hnone).
      exists r, w', ([PathExists p false; Sleep 1] ++ tr).
      split; [exact Hrun|]. split.
      { rewrite Htr. unfold w1. rewrite settle_trace. cbn. by rewrite <- !app_assoc. }
      split; [by apply quiet_app|].
      split.
      { rewrite polls_of_app. unfold polls_of at 1. simpl.
        rewrite String.eqb_refl. simpl. lia. }
      split; [rewrite Hsrv; unfold w1; by rewrite settle_servers|].
      split.
      * intros d Hd. destruct (Hr d Hd) as [-> Hseen]. split; [done|].
        by rewrite seen_on_disk_app, Hseen, orb_true_r.
      * intros Hn. cbn [replicate List.concat]. by rewrite (Hnone Hn).
Qed.

(** What the fetcher leaves in the trace, whatever the servers and the
    disk do. *)
Lemma download_trace server wb proj w r w' :
  download_workbook_from_project pl server wb proj w = (r, w') →
  w_servers w' = w_servers w
  ∧ ∃ tr, w_trace w' = w_trace w ++ tr
      ∧ quiet tr
      ∧ polls_of (expected_path pl wb) tr ≤ 20
      ∧ (∀ d, r = Ok (Some d) →
           d = expected_path pl wb ∧ seen_on_disk (expected_path pl wb) tr = true)
      ∧ (∀ ps p wbk wbs,
           r_projects_get (w_servers w server) = Some ps →
           List.find (name_matches (requested proj)) ps = Some p →
           r_workbooks_get (w_servers w server) wb (proj_name p) = Some (wbk :: wbs) →
           r_download (w_servers w server) (wb_id wbk) ≠ DlRaises →
           seen_on_disk (expected_path pl wb) tr = false →
           r = Ok None
           ∧ tr = [Log (MAttemptDownload wb proj);
                   Log (MFoundProject (proj_name p) (proj_id p));
                   Log (MDownloading (wb_id wbk)
                          (os_path_join pl LOCAL_DIRECTORY ("source_" +:+ wb)))]
                  ++ List.concat (replicate 20 (poll_miss (expected_path pl wb)))
                  ++ [Log (MDownloadTimedOut (expected_path pl wb) 20)]).
Proof.
  unfold download_workbook_from_project.
  rewrite bind_run. cbn [log_message record].
  rewrite bind_run.
  destruct (r_projects_get (w_servers w server)) as [ps|] eqn:Hps.
  2:{ rewrite find_project_by_name_raises by done. intros [= <- <-].
      split; [done|]. stop_facts. }
  rewrite (find_project_by_name_run _ _ _ ps) by done.
  destruct (List.find _ ps) as [p|] eqn:Hfind; cbn [found_project].
  2:{ intros [= <- <-]. split; [done|]. stop_facts. }
  rewrite bind_run. unfold workbooks_get at 1. rewrite bind_run. cbn [get_world].
  cbn [w_servers emit].
  destruct (r_workbooks_get _ _ _) as [[|wbk wbs]|] eqn:Hwbs;
    cbn [mret M_ret mthrow M_throw].
  3:{ intros [= <- <-]. split; [done|]. stop_facts. }
  1:{ intros [= <- <-]. split; [done|]. stop_facts. }
  rewrite bind_run. unfold attempt at 1.
  rewrite bind_run. cbn [log_message record].
  rewrite bind_run. unfold workbooks_download at 1. rewrite bind_run. cbn [get_world].
  cbn [w_servers emit].
  fold (expected_path pl wb).
  set (w1 := emit (Log (MDownloading _ _)) _).
  set (head := [Log (MAttemptDownload wb proj);
                Log (MFoundProject (proj_name p) (proj_id p));
                Log (MDownloading (wb_id wbk)
                       (os_path_join pl LOCAL_DIRECTORY ("source_" +:+ wb)))]).
  assert (w_trace w1 = w_trace w ++ head) as Htr1.
  { unfold w1. cbn. by rewrite <- !app_assoc. }
  assert (quiet head ∧ polls_of (expected_path pl wb) head = 0
          ∧ seen_on_disk (expected_path pl wb) head = false
          ∧ ∀ e, quiet [Log (MDownloadTimedOut (expected_path pl wb) 20)]
                 ∧ quiet [Log (MDownloadException e)]) as (Hqh & Hph & Hsh & Hqt) by done.
  assert (w_servers w1 = w_servers w) as Hsrv1 by done.
  assert (∀ w2, w_trace w2 = w_trace w1 → w_servers w2 = w_servers w1 →
    (let (r, w'0) :=
       let '(r, w'0) :=
         let (r, w'0) :=
           for_each (seq 0 20) (λ i,
             exists_ ← os_path_exists (expected_path pl wb);
             if exists_ : bool
             then log_message (MDownloadPresent (i + 1));;
                  mret (Some (expected_path pl wb))
             else time_sleep 1;; mret None) w2 in
         match r with
         | Ok a =>
             match a with
             | Some p0 => mret (Some p0)
             | None =>
                 log_message (MDownloadTimedOut (expected_path pl wb) 20);;
                 mret None
             end w'0
         | Raised e => (Raised e, w'0)
         end in (Ok r, w'0) in
     match r with
     | Ok a =>
         match a with
         | Ok v => mret v
         | Raised e => log_message (MDownloadException e);; mret None
         end w'0
     | Raised e => (Raised e, w'0)
     end) = (r, w') →
    w_servers w' = w_servers w
    ∧ ∃ tr, w_trace w' = w_trace w ++ tr
        ∧ quiet tr
        ∧ polls_of (expected_path pl wb) tr ≤ 20
        ∧ (∀ d, r = Ok (Some d) →
             d = expected_path pl wb
             ∧ seen_on_disk (expected_path pl wb) tr = true)
        ∧ (seen_on_disk (expected_path pl wb) tr = false →
           r = Ok None
           ∧ tr = head
                  ++ List.concat (replicate 20 (poll_miss (expected_path pl wb)))
                  ++ [Log (MDownloadTimedOut (expected_path pl wb) 20)])) as Hloop.
  { clearbody w1 head. intros w2 Htr2 Hsrv2.
    destruct (wait_loop_trace (expected_path pl wb) 20 0 w2)
      as (r0 & w3 & tr & Hrun & Htr & Hq & Hpolls & Hsrv & Hr & Hnone).
    rewrite Hrun. destruct r0 as [d|]; cbn.
    - intros [= <- <-]. split; [congruence|].
      exists (head ++ tr). rewrite Htr, Htr2, Htr1, <- app_assoc.
      split; [done|]. split; [by apply quiet_app|].
      split; [rewrite polls_of_app; lia|].
      destruct (Hr d eq_refl) as [-> Hseen].
      split; [intros ? [= <-]; split; [done|];
              by rewrite seen_on_disk_app, Hseen, orb_true_r|].
      rewrite seen_on_disk_app, Hseen, orb_true_r. done.
    - intros [= <- <-]. split; [cbn; congruence|].
      exists (head ++ tr ++ [Log (MDownloadTimedOut (expected_path pl wb) 20)]).
      cbn. rewrite Htr, Htr2, Htr1, <- !app_assoc.
      split; [done|].
      split; [apply quiet_app; [done|apply quiet_app; [done|apply Hqt; constructor]]|].
      split; [rewrite !polls_of_app; cbn; lia|].
      split; [done|]. intros _. by rewrite (Hnone eq_refl). }
  assert (∀ tr,
    (seen_on_disk (expected_path pl wb) tr = false →
     r = Ok None
     ∧ tr = head
            ++ List.concat (replicate 20 (poll_miss (expected_path pl wb)))
            ++ [Log (MDownloadTimedOut (expected_path pl wb) 20)]) →
    ∀ ps0 p0 wbk0 wbs0,
      Some ps = Some ps0 →
      List.find (name_matches (requested proj)) ps0 = Some p0 →
      r_workbooks_get (w_servers w server) wb (proj_name p0) = Some (wbk0 :: wbs0) →
      r_download (w_servers w server) (wb_id wbk0) ≠ DlRaises →
      seen_on_disk (expected_path pl wb) tr = false →
      r = Ok None
      ∧ tr = [Log (MAttemptDownload wb proj);
              Log (MFoundProject (proj_name p0) (proj_id p0));
              Log (MDownloading (wb_id wbk0)
                     (os_path_join pl LOCAL_DIRECTORY ("source_" +:+ wb)))]
             ++ List.concat (replicate 20 (poll_miss (expected_path pl wb)))
             ++ [Log (MDownloadTimedOut (expected_path pl wb) 20)]) as Hexact.
  { intros tr Hns ps0 p0 wbk0 wbs0 [= <-] Hf Hw _ Hseen.
    rewrite Hfind in Hf. injection Hf as <-.
    rewrite Hwbs in Hw. injection Hw as <- <-. by apply Hns. }
  clearbody w1 head.
  destruct (r_download _ _) as [|delay f|] eqn:Hdl; cbn [mret M_ret mthrow M_throw].
  - intros [= <- <-]. split; [done|].
    exists (head ++ [Log (MDownloadException ServerError)]).
    cbn. rewrite Htr1, <- app_assoc. split; [done|].
    split; [apply quiet_app; [done|apply Hqt]|].
    split; [rewrite polls_of_app; cbn; lia|].
    split; [done|]. intros ps0 p0 wbk0 wbs0 Hps0 Hf Hw Hne.
    injection Hps0 as <-. rewrite Hfind in Hf. injection Hf as <-.
    rewrite Hwbs in Hw. injection Hw as <- <-. by rewrite Hdl in Hne.
  - unfold schedule at 1. cbv beta iota. rewrite bind_run. intros Hrun.
    apply Hloop in Hrun; [|by rewrite settle_trace|by rewrite settle_servers].
    destruct Hrun as (Hsrv & tr & Htr & Hq & Hpolls & Hd & Hns).
    split; [done|]. exists tr. split_and!; try done. by apply Hexact.
  - rewrite bind_run. intros Hrun. apply Hloop in Hrun; [|done..].
    destruct Hrun as (Hsrv & tr & Htr & Hq & Hpolls & Hd & Hns).
    split; [done|]. exists tr. split_and!; try done. by apply Hexact.
Qed.
End fetcher.

Section orchestrator.
Context (pl : platform).

Lemma trace_after w fs tr : w_trace (after w fs tr) = w_trace w ++ tr.
Proof. done. Qed.

(** A run that stops before the publisher has reported no failure of
    the publisher. *)
Ltac stopped_early :=
  let Htr := fresh "Htr" in let Hpf := fresh "Hpf" in
  intros [= <-] Htr Hpf; exfalso;
  repeat match goal with
         | H : w_trace ?x = _ |- _ => rewrite trace_after in H
         end;
  rewrite ?trace_after in Htr;
  repeat match goal with
         | H : w_trace ?x = _ |- _ =>
             tryif constr_eq H Htr then fail else rewrite H in Htr
         end;
  rewrite <- ?app_assoc in Htr; apply app_inv_head in Htr; subst;
  rewrite ?publish_failed_app in Hpf;
  repeat match goal with
         | H : publish_failed _ = false |- _ => rewrite H in Hpf
         end;
  discriminate Hpf.

(** A run that went through the clean-up. *)
Ltac finished :=
  let Htr := fresh "Htr" in let Hpf := fresh "Hpf" in
  intros [= <-] Htr Hpf;
  cbn [w_fs after]; split_and!; [by simplify_map_eq..|];
  repeat match goal with
         | H : w_trace ?x = _ |- _ => rewrite trace_after in H
         end;
  rewrite ?trace_after in Htr;
  repeat match goal with
         | H : w_trace ?x = _ |- _ =>
             tryif constr_eq H Htr then fail else rewrite H in Htr
         end;
  rewrite <- ?app_assoc in Htr; apply app_inv_head in Htr; subst;
  rewrite ?cleanup_completed_app;
  cbn [cleanup_completed existsb orb];
  by rewrite ?orb_true_r.

(** C1, as the code has it.  The publisher reports its failures and
    returns, and the orchestrator goes on to the clean-up: in a run that
    returns normally and in which the publisher has reported a failure
    (no project for the destination name, or an upload that raised),
    neither the downloaded archive nor the transformed archive is on
    disk at the end, and the clean-up has run to its end. *)
Theorem publish_failure_still_cleans_up cfg w w' tr :
  process_workbook_migration pl cfg w = (Ok (), w') →
  w_trace w' = w_trace w ++ tr →
  publish_failed tr = true →
  w_fs w' !! expected_path pl (workbook_name cfg) = None
  ∧ w_fs w' !! modified_path pl (workbook_name cfg) = None
  ∧ cleanup_completed tr = true.
Proof.
  start_run w.
  unfold process_workbook_migration, ensure_local_directory.
  set (fs := w_fs w). clearbody fs.
  explore.
  all: try (intros [=]; fail).
  all: try (stopped_early; fail).
  (* the fetcher *)
  all: match goal with
       | |- context [download_workbook_from_project ?a ?b ?c ?d ?w0] =>
           destruct (download_workbook_from_project a b c d w0) as [r1 w1] eqn:Hdl;
           apply download_trace in Hdl
             as (Hsrv1 & tr1 & Htr1 & (Hpf1 & _ & _) & _ & Hd & _)
       end.
  all: destruct r1 as [[d|]|]; [| |intros [=]].
  all: start_run w1; explore.
  all: try (intros [=]; fail).
  all: try (stopped_early; fail).
  all: destruct (Hd _ eq_refl) as [-> _].
  (* the transformer *)
  all: match goal with
       | |- context [modify_and_repackage_workbook ?a ?b ?c ?d ?e ?w0] =>
           destruct (modify_trace a b c d e w0) as (tr2 & Htr2 & Hpf2);
           destruct (modify_and_repackage_workbook a b c d e w0)
             as [r2 w2] eqn:Hmod
       end.
  all: cbn [snd] in Htr2.
  all: destruct r2 as [[m|]|]; [| |intros [=]].
  all: try (start_run w2; run; stopped_early; fail).
  all: apply modify_success in Hmod
         as (a & t & file & raw & Ha & Hne1 & Hne2 & _ & _ & _ & -> & Hm & _ & Hother & Hsrv2).
  all: cbn [w_fs after] in Ha, Hother.
  all: assert (∃ x, w_fs w2 !! expected_path pl (workbook_name cfg) = Some (FZip x))
         as [x Hx]
         by (destruct (decide (expected_path pl (workbook_name cfg)
                               = modified_path pl (workbook_name cfg))) as [E|N];
             [rewrite E; eauto|rewrite Hother by done; eauto]).
  all: clear Ha Hother.
  all: set (dp := expected_path pl (workbook_name cfg)) in *;
       set (mp := modified_path pl (workbook_name cfg)) in *;
       clearbody dp mp.
  all: start_run w2; set (fs2 := w_fs w2) in *; clearbody fs2.
  all: unfold publish_modified_workbook.
  all: explore.
  all: try (intros [=]; fail).
  all: try (stopped_early; fail).
  all: finished.
Qed.

Lemma local_is_not_expected wb :
  String.eqb LOCAL_DIRECTORY (expected_path pl wb) = false.
Proof.
  apply String.eqb_neq. apply not_eq_sym, expected_path_ne_local.
Qed.

Lemma transformer_ran_app tr1 tr2 :
  transformer_ran (tr1 ++ tr2) = transformer_ran tr1 || transformer_ran tr2.
Proof. apply existsb_app. Qed.

Lemma publisher_ran_app tr1 tr2 :
  publisher_ran (tr1 ++ tr2) = publisher_ran tr1 || publisher_ran tr2.
Proof. apply existsb_app. Qed.

(** Bring [Htr : w_trace w' = w_trace w ++ tr] to [tr = ...]. *)
Ltac solve_trace Htr :=
  repeat match goal with
         | H : w_trace ?x = _ |- _ => rewrite trace_after in H
         end;
  rewrite ?trace_after in Htr;
  repeat match goal with
         | H : w_trace ?x = _ |- _ =>
             tryif constr_eq H Htr then fail else rewrite H in Htr
         end;
  rewrite <- ?app_assoc in Htr; apply app_inv_head in Htr; subst.

(** The run has seen the file, against the hypothesis. *)
Ltac was_seen :=
  let Htr := fresh "Htr" in let Hns := fresh "Hns" in
  intros [= <- <-] Htr Hns; exfalso; solve_trace Htr;
  rewrite ?seen_on_disk_app in Hns;
  repeat match goal with
         | H : seen_on_disk _ _ = true |- _ => rewrite H in Hns
         end;
  rewrite ?orb_true_r in Hns; discriminate Hns.

(** The run stopped at the fetcher. *)
Ltac stopped_at_fetcher Hdp :=
  let Htr := fresh "Htr" in let Hns := fresh "Hns" in
  intros [= <- <-] Htr Hns; solve_trace Htr;
  rewrite ?polls_of_app, ?transformer_ran_app, ?publisher_ran_app;
  repeat match goal with
         | H : quiet _ |- _ => destruct H as (_ & -> & ->)
         end;
  unfold polls_of in *;
  cbn [transformer_ran publisher_ran existsb List.filter orb];
  rewrite ?Hdp; cbn [List.filter List.length Nat.add];
  split_and!; done || lia.

(** A run that never finds the downloaded file on disk does not get
    beyond the fetcher. *)
Lemma process_never_seen cfg w r w' tr :
  process_workbook_migration pl cfg w = (r, w') →
  w_trace w' = w_trace w ++ tr →
  seen_on_disk (expected_path pl (workbook_name cfg)) tr = false →
  polls_of (expected_path pl (workbook_name cfg)) tr ≤ 20
  ∧ transformer_ran tr = false
  ∧ publisher_ran tr = false.
Proof.
  pose proof (local_is_not_expected (workbook_name cfg)) as Hdp.
  start_run w.
  unfold process_workbook_migration, ensure_local_directory.
  set (fs := w_fs w). clearbody fs.
  explore.
  all: try (stopped_at_fetcher Hdp; fail).
  all: match goal with
       | |- context [download_workbook_from_project ?a ?b ?c ?d ?w0] =>
           destruct (download_workbook_from_project a b c d w0) as [r1 w1] eqn:Hdl;
           apply download_trace in Hdl
             as (Hsrv1 & tr1 & Htr1 & Hq1 & Hpolls1 & Hd & _)
       end.
  all: destruct r1 as [[d|]|].
  all: try (stopped_at_fetcher Hdp; fail).
  all: try (start_run w1; explore; stopped_at_fetcher Hdp; fail).
  (* the file was found: against the hypothesis *)
  all: destruct (Hd _ eq_refl) as [-> Hseen]; clear Hd.
  all: set (dp := expected_path pl (workbook_name cfg)) in *; clearbody dp.
  all: start_run w1; explore.
  all: try (was_seen; fail).
  all: match goal with
       | |- context [modify_and_repackage_workbook ?a ?b ?c ?d ?e ?w0] =>
           destruct (modify_trace a b c d e w0) as (tr2 & Htr2 & _);
           destruct (modify_and_repackage_workbook a b c d e w0) as [r2 w2]
       end.
  all: cbn [snd] in Htr2.
  all: destruct r2 as [[m|]|].
  all: try (was_seen; fail).
  all: start_run w2; unfold publish_modified_workbook;
       set (fs2 := w_fs w2); clearbody fs2; explore.
  all: was_seen.
Qed.
Lemma polls_of_timeout_trace cfg src p wbk b1 b2 :
  polls_of (expected_path pl (workbook_name cfg))
    (timeout_trace pl cfg src p wbk b1 b2) = 20.
Proof.
  unfold timeout_trace. rewrite !polls_of_app, polls_of_misses.
  unfold polls_of. cbn [List.filter List.length].
  rewrite local_is_not_expected. by destruct b1, b2.
Qed.

(** The run stopped at the fetcher, which was to time out. *)
Ltac timed_out :=
  let Htr := fresh "Htr" in let Hns := fresh "Hns" in
  let Hr := fresh "Hr" in
  intros [= <- <-] Htr Hns; solve_trace Htr;
  rewrite ?seen_on_disk_app in Hns;
  repeat match type of Hns with
         | orb _ _ = false => apply orb_false_iff in Hns as [? Hns]
         end;
  match goal with
  | Hexact : ∀ ps p wbk wbs, _ → _ → _ → _ → _ → _ ∧ _ |- _ =>
      edestruct Hexact as [Hr ->]; [eassumption..|]
  end;
  first
    [ discriminate Hr
    | split; [reflexivity|];
      unfold timeout_trace;
      repeat match goal with
             | H : bool_decide _ = _ |- _ => rewrite H
             end;
      trace_eq ].

(** When the download request went out, a run that never finds the file
    is the run of [timeout_trace]. *)
Lemma process_timeout_exact cfg w r w' tr src ps p wbk wbs :
  process_workbook_migration pl cfg w = (r, w') →
  w_trace w' = w_trace w ++ tr →
  seen_on_disk (expected_path pl (workbook_name cfg)) tr = false →
  ENVIRONMENTS !! source_env cfg = Some src →
  r_sign_in (w_servers w (server_url src)) = true →
  r_projects_get (w_servers w (server_url src)) = Some ps →
  List.find (name_matches (requested (source_project_name cfg))) ps = Some p →
  r_workbooks_get (w_servers w (server_url src)) (workbook_name cfg) (proj_name p)
    = Some (wbk :: wbs) →
  r_download (w_servers w (server_url src)) (wb_id wbk) ≠ DlRaises →
  r = (if r_sign_out (w_servers w (server_url src)) then Ok () else Raised ServerError)
  ∧ tr = timeout_trace pl cfg src p wbk
           (bool_decide (is_Some (w_fs w !! LOCAL_DIRECTORY)))
           (r_sign_out (w_servers w (server_url src))).
Proof.
  intros Hrun Htr Hns Henv Hin Hps Hfind Hwbs Hdl.
  revert Hrun Htr Hns.
  start_run w.
  unfold process_workbook_migration, ensure_local_directory.
  destruct (bool_decide (is_Some (w_fs w !! LOCAL_DIRECTORY))) eqn:Hlocal.
  all: set (fs := w_fs w) in *; clearbody fs.
  all: explore.
  all: match goal with
       | |- context [download_workbook_from_project ?a ?b ?c ?d ?w0] =>
           destruct (download_workbook_from_project a b c d w0) as [r1 w1] eqn:Hrun1;
           apply download_trace in Hrun1
             as (Hsrv1 & tr1 & Htr1 & Hq1 & Hpolls1 & Hd & Hexact)
       end.
  all: cbn [w_servers after] in Hexact, Hsrv1.
  all: destruct r1 as [[d|]|].
  all: try (timed_out; fail).
  all: try (start_run w1; explore; timed_out; fail).
  (* the file was found: against the hypothesis *)
  all: destruct (Hd _ eq_refl) as [-> Hseen]; clear Hd.
  all: set (dp := expected_path pl (workbook_name cfg)) in *; clearbody dp.
  all: start_run w1; explore.
  all: try (was_seen; fail).
  all: match goal with
       | |- context [modify_and_repackage_workbook ?a ?b ?c ?d ?e ?w0] =>
           destruct (modify_trace a b c d e w0) as (tr2 & Htr2 & _);
           destruct (modify_and_repackage_workbook a b c d e w0) as [r2 w2]
       end.
  all: cbn [snd] in Htr2.
  all: destruct r2 as [[m|]|].
  all: try (was_seen; fail).
  all: start_run w2; unfold publish_modified_workbook;
       set (fs2 := w_fs w2); clearbody fs2; explore.
  all: was_seen.
Qed.
End orchestrator.

(** * The first match of a loop with [break] *)

Lemma find_first_Some {A} (f : A → bool) l x :
  List.find f l = Some x ↔
  ∃ before after, l = before ++ x :: after ∧ f x = true
                  ∧ ∀ y, y ∈ before → f y = false.
Proof.
  split.
  - induction l as [|y l IH]; [done|]. simpl. destruct (f y) eqn:Hy.
    + intros [= ->]. exists [], l. split; [done|]. split; [done|].
      intros ? H. by apply elem_of_nil in H.
    + intros H. destruct (IH H) as (before & after & -> & Hx & Hb).
      exists (y :: before), after. split; [done|]. split; [done|].
      intros z [->|Hz]%elem_of_cons; auto.
  - intros (before & after & -> & Hx & Hb).
    induction before as [|y before IH]; simpl.
    + by rewrite Hx.
    + rewrite (Hb y) by left. apply IH. intros z Hz. apply Hb. by right.
Qed.

Lemma find_first_None {A} (f : A → bool) l :
  List.find f l = None ↔ ∀ y, y ∈ l → f y = false.
Proof.
  induction l as [|y l IH]; simpl.
  - split; [|done]. intros _ ? H. by apply elem_of_nil in H.
  - destruct (f y) eqn:Hy.
    + split; [done|]. intros H. rewrite (H y) in Hy by left. done.
    + rewrite IH. split.
      * intros H z [->|Hz]%elem_of_cons; auto.
      * intros H z Hz. apply H. by right.
Qed.

(* ================================================================== *)
(** * The properties of the specification *)
(* ================================================================== *)

(** ** Container resolution *)

Lemma name_matches_true key p :
  name_matches key p = true ↔ lower (proj_name p) = lower key.
Proof. unfold name_matches. by destruct (String.eqb_spec (lower (proj_name p)) (lower key)). Qed.

Lemma name_matches_false key p :
  name_matches key p = false ↔ lower (proj_name p) ≠ lower key.
Proof. unfold name_matches. by destruct (String.eqb_spec (lower (proj_name p)) (lower key)). Qed.

Lemma find_project_by_name_result server name w ps :
  r_projects_get (w_servers w server) = Some ps →
  (find_project_by_name server name w).1
  = Ok (List.find (name_matches (requested name)) ps).
Proof. intros Hps. by rewrite (find_project_by_name_run _ _ _ ps). Qed.

(** C9, as the code has it.  [find_project_by_name] compares the names of
    the list with the requested name from which one leading "/" has been
    removed, without regard to case: it returns the first project of the
    list whose lower-cased name is the lower-cased requested name, and
    [None] exactly when no name of the list matches in that way.  So
    "sales", "Sales" and "SALES" resolve to the project named "Sales". *)
Theorem project_lookup_ignores_case server name w ps :
  r_projects_get (w_servers w server) = Some ps →
  (∀ p, (find_project_by_name server name w).1 = Ok (Some p) ↔
        ∃ before after, ps = before ++ p :: after
          ∧ lower (proj_name p) = lower (requested name)
          ∧ ∀ q, q ∈ before → lower (proj_name q) ≠ lower (requested name))
  ∧ ((find_project_by_name server name w).1 = Ok None ↔
       ∀ q, q ∈ ps → lower (proj_name q) ≠ lower (requested name))
  ∧ (∀ before p after,
       ps = before ++ p :: after →
       proj_name p = "Sales" →
       (∀ q, q ∈ before → lower (proj_name q) ≠ "sales") →
       name ∈ ["sales"; "Sales"; "SALES"] →
       (find_project_by_name server name w).1 = Ok (Some p)).
Proof.
  intros Hps. rewrite (find_project_by_name_result _ _ _ ps Hps). split_and!.
  - intros p. split.
    + intros [= H]. apply find_first_Some in H as (before & after & -> & Hp & Hb).
      exists before, after. split; [done|]. split; [by apply name_matches_true|].
      intros q Hq. apply name_matches_false. auto.
    + intros (before & after & -> & Hp & Hb). f_equal. apply find_first_Some.
      exists before, after. split; [done|]. split; [by apply name_matches_true|].
      intros q Hq. apply name_matches_false. auto.
  - split.
    + intros [= H] q Hq. apply name_matches_false.
      by apply (proj1 (find_first_None _ _) H).
    + intros H. f_equal. apply find_first_None. intros q Hq.
      apply name_matches_false. auto.
  - intros before p after -> Hp Hb Hname. f_equal. apply find_first_Some.
    assert (lower (requested name) = "sales") as Hkey.
    { repeat (apply elem_of_cons in Hname as [->|Hname]; [done|]).
      by apply elem_of_nil in Hname. }
    exists before, after. split; [done|]. split.
    + apply name_matches_true. by rewrite Hp, Hkey.
    + intros q Hq. apply name_matches_false. rewrite Hkey. auto.
Qed.

Lemma project_lookup_ignores_case_witness :
  (find_project_by_name qa_url "SALES" (start without_finance without_finance)).1
  = Ok (Some sales).
Proof.
  apply (project_lookup_ignores_case qa_url "SALES"
           (start without_finance without_finance) [marketing; sales] eq_refl).
  exists [marketing], []. split; [reflexivity|]. split; [reflexivity|].
  intros q Hq. apply list_elem_of_singleton in Hq. subst q. vm_compute. discriminate.
Defined.

(** C9, as the specification states it, fails for a requested name that
    begins with "/": no name of the list is "/sales" whatever the case, and
    yet a project is returned. *)
Lemma slash_name_resolves_without_match :
  (∀ q, q ∈ [marketing; sales] → lower (proj_name q) ≠ lower "/sales")
  ∧ (find_project_by_name qa_url "/sales" (start without_finance without_finance)).1
    = Ok (Some sales).
Proof.
  split; [|reflexivity].
  intros q Hq. repeat (apply elem_of_cons in Hq as [->|Hq]; [by vm_compute|]).
  by apply elem_of_nil in Hq.
Qed.

(** C10.  One leading "/" of the requested name is removed before the
    comparison: "/" followed by [s] is looked up as [s] (also when [s]
    itself begins with "/"), a name that does not begin with "/" is looked
    up as it is, and so "/Finance" resolves as "Finance" does. *)
Theorem leading_slash_is_stripped_once server s w ps :
  r_projects_get (w_servers w server) = Some ps →
  (find_project_by_name server ("/" +:+ s) w).1
  = Ok (List.find (name_matches s) ps)
  ∧ (startswith s "/" = false →
       (find_project_by_name server s w).1 = Ok (List.find (name_matches s) ps)
       ∧ find_project_by_name server ("/" +:+ s) w = find_project_by_name server s w).
Proof.
  intros Hps. split.
  - by rewrite (find_project_by_name_result _ _ _ ps Hps), requested_slash.
  - intros Hs. split.
    + by rewrite (find_project_by_name_result _ _ _ ps Hps), requested_plain.
    + rewrite !(find_project_by_name_run _ _ _ ps Hps).
      by rewrite requested_slash, requested_plain.
Qed.

Lemma leading_slash_is_stripped_once_witness :
  (find_project_by_name qa_url "/Finance" (start (serving (FZip twbx)) without_finance)).1
  = Ok (Some finance)
  ∧ (find_project_by_name qa_url "//Finance" (start (serving (FZip twbx)) without_finance)).1
    = Ok None
  ∧ find_project_by_name qa_url "/Finance" (start (serving (FZip twbx)) without_finance)
    = find_project_by_name qa_url "Finance" (start (serving (FZip twbx)) without_finance).
Proof.
  split; [|split].
  - exact (proj1 (leading_slash_is_stripped_once qa_url "Finance"
             (start (serving (FZip twbx)) without_finance) [marketing; finance] eq_refl)).
  - exact (proj1 (leading_slash_is_stripped_once qa_url "/Finance"
             (start (serving (FZip twbx)) without_finance) [marketing; finance] eq_refl)).
  - exact (proj2 (proj2 (leading_slash_is_stripped_once qa_url "Finance"
             (start (serving (FZip twbx)) without_finance) [marketing; finance] eq_refl)
             eq_refl)).
Defined.

(** ** The transformer *)

Section transformer_results.
Context (pl : platform).

Lemma modified_path_ne_extract_folder wb :
  modified_path pl wb ≠ extract_folder pl wb.
Proof.
  unfold modified_path, extract_folder, os_path_join. intros H.
  apply (f_equal String.length) in H. rewrite !str_length_app in H.
  simpl in H. lia.
Qed.

(** When the transformer returns the path of the new archive. *)
Lemma modify_succeeds twbx wb find repl w a t file raw :
  w_fs w !! twbx = Some (FZip a) →
  twbx ≠ extract_folder pl wb →
  (w_fs w !! extract_folder pl wb = None
   ∨ ∃ t0, w_fs w !! extract_folder pl wb = Some (FDir t0)) →
  (∀ t1, w_fs w !! modified_path pl wb ≠ Some (FDir t1)) →
  extractall a [] = (t, true) →
  find_twb_file (listdir t) = Some file →
  lookup_name file t = Some (File (Text raw)) →
  (modify_and_repackage_workbook pl twbx wb find repl w).1
  = Ok (Some (modified_path pl wb)).
Proof.
  intros Ha Hne Hef Hmp Hex Htwb Hfile.
  pose proof (modified_path_ne_extract_folder wb) as Hme.
  start_run w.
  unfold modify_and_repackage_workbook.
  fold (extract_folder pl wb). fold (modified_path pl wb).
  set (ef := extract_folder pl wb) in *. set (mp := modified_path pl wb) in *.
  set (fs := w_fs w) in *. clearbody ef mp fs.
  destruct Hef as [Hef|[t0 Hef]].
  all: explore.
  all: try done.
  all: exfalso; by eapply Hmp.
Qed.
End transformer_results.



(** C6.  The replacement is not a literal replacement in the text of
    the definition file: the file is read in text mode, so the find
    string is looked for in the text with every line end decoded to LF,
    and the result is written with every LF as the line separator of the
    platform.  For the definition file "<a>x" CR LF "y</a>" the find
    string "x" CR LF "y" occurs in the file and its literal replacement
    by "Z" is "<a>Z</a>"; the transformer succeeds, reports that the find
    string was not found, and writes the file unchanged on Windows and
    with LF for CR LF on POSIX.  The find string "x" LF "y" does not
    occur in the file, and the transformer replaces it: it writes
    "<a>Z</a>". *)
Theorem find_across_line_end_is_not_replaced :
  contains twb_crlf_text find_crlf = true
  ∧ replace twb_crlf_text find_crlf "Z" = "<a>Z</a>"
  ∧ (∀ pl,
       (transform_with pl (FZip twbx_crlf) find_crlf "Z").1
       = Ok (Some (modified_path pl "Revenue"))
       ∧ Log MFindStringAbsent
         ∈ w_trace (transform_with pl (FZip twbx_crlf) find_crlf "Z").2)
  ∧ produced Windows (transform_with Windows (FZip twbx_crlf) find_crlf "Z")
      ["Revenue.twb"]
    = [Text twb_crlf_text]
  ∧ produced Posix (transform_with Posix (FZip twbx_crlf) find_crlf "Z")
      ["Revenue.twb"]
    = [Text ("<a>x" +:+ String LF "y</a>")]
  ∧ contains twb_crlf_text find_lf = false
  ∧ replace twb_crlf_text find_lf "Z" = twb_crlf_text
  ∧ (∀ pl,
       (transform_with pl (FZip twbx_crlf) find_lf "Z").1
       = Ok (Some (modified_path pl "Revenue"))
       ∧ produced pl (transform_with pl (FZip twbx_crlf) find_lf "Z")
           ["Revenue.twb"]
         = [Text "<a>Z</a>"]).
Proof.
  split; [reflexivity|]. split; [reflexivity|]. split.
  { intros [|]; (split; [reflexivity|]);
      vm_compute; repeat (first [by left | right]). }
  split; [reflexivity|]. split; [reflexivity|].
  split; [reflexivity|]. split; [reflexivity|].
  intros [|]; split; reflexivity.
Qed.

(** C7.  When the find string does not occur in the definition file, the
    transformer succeeds and logs the warning, the other members of the
    archive come out byte for byte, but the definition file does not come
    out as it went in: it has been read and written in text mode, so each
    of its line ends has become the line separator of the platform.  For
    a definition file with one line that ends in CR LF and one that ends
    in LF, the member of the new archive differs from the member of the
    input archive on Windows and on POSIX alike. *)
Theorem absent_find_rewrites_line_ends :
  contains twb_plain_text (url_find cfg) = false
  ∧ (∀ pl,
       (transform pl (FZip twbx_plain)).1 = Ok (Some (modified_path pl "Revenue"))
       ∧ Log MFindStringAbsent ∈ w_trace (transform pl (FZip twbx_plain)).2
       ∧ produced pl (transform pl (FZip twbx_plain))
           ["Data"; "Extracts"; "revenue.hyper"] = [hyper])
  ∧ produced Windows (transform Windows (FZip twbx_plain)) ["Revenue.twb"]
    = [Text ("<workbook>" +:+ String CR (String LF "<sheet/>")
             +:+ String CR (String LF "</workbook>"))]
  ∧ produced Posix (transform Posix (FZip twbx_plain)) ["Revenue.twb"]
    = [Text ("<workbook>" +:+ String LF "<sheet/>" +:+ String LF "</workbook>")]
  ∧ (∀ pl, produced pl (transform pl (FZip twbx_plain)) ["Revenue.twb"]
           ≠ [Text twb_plain_text])
  ∧ (∀ pl find repl raw,
       contains (universal_newlines raw) find = false →
       rewritten pl find repl raw
       = Text (translate_newlines (os_linesep pl) (universal_newlines raw))).
Proof.
  split; [reflexivity|]. split.
  { intros [|]; (split; [reflexivity|]); (split; [|reflexivity]);
      vm_compute; repeat (first [by left | right]). }
  split; [reflexivity|]. split; [reflexivity|]. split.
  { intros [|]; vm_compute; discriminate. }
  intros pl find repl raw Hc. unfold rewritten. by rewrite replace_absent.
Qed.

(** C3.  The extraction directory is not removed on the path on which the
    extraction fails.  When the download is not a zip archive and the
    extraction directory does not exist yet, the transformer makes the
    directory, reports the failure of the extraction and returns nothing;
    the directory it has made is still there. *)
Theorem extract_failure_leaves_extract_folder pl twbx wb find repl w c :
  w_fs w !! twbx = Some (FData c) →
  twbx ≠ extract_folder pl wb →
  w_fs w !! extract_folder pl wb = None →
  modify_and_repackage_workbook pl twbx wb find repl w
  = (Ok None,
     after w (<[extract_folder pl wb := FDir []]> (w_fs w))
       [Log (MExtracting twbx (extract_folder pl wb));
        PathExists (extract_folder pl wb) false;
        Log (MExtractFailed BadZipFile)]).
Proof.
  intros Ha Hne Hef.
  start_run w.
  unfold modify_and_repackage_workbook.
  fold (extract_folder pl wb).
  set (ef := extract_folder pl wb) in *.
  set (fs := w_fs w) in *. clearbody ef fs.
  explore. all: done.
Qed.

Lemma extract_failure_leaves_extract_folder_witness :
  (transform Windows (FData (Text "not a zip archive"))).1 = Ok None
  ∧ w_fs (transform Windows (FData (Text "not a zip archive"))).2
      !! extract_folder Windows "Revenue" = Some (FDir []).
Proof.
  unfold transform.
  rewrite (extract_failure_leaves_extract_folder Windows
             (expected_path Windows "Revenue") "Revenue"
             (url_find cfg) (url_replace cfg)
             (downloaded Windows (FData (Text "not a zip archive")))
             (Text "not a zip archive")).
  - split; reflexivity.
  - reflexivity.
  - vm_compute. discriminate.
  - reflexivity.
Defined.

(** C2, as the code has it.  The transformer looks for the definition
    file among the names at the top of the extraction directory only
    ([os.listdir]), and takes the first of them, file or directory, whose
    lower-cased name ends in ".twb".  It reports that there is no
    definition file exactly when no name at the top ends so, whatever the
    directories below hold. *)
Theorem definition_file_is_first_top_level_match pl twbx wb find repl w a t :
  w_fs w !! twbx = Some (FZip a) →
  twbx ≠ extract_folder pl wb →
  (w_fs w !! extract_folder pl wb = None
   ∨ ∃ t0, w_fs w !! extract_folder pl wb = Some (FDir t0)) →
  extractall a [] = (t, true) →
  ∃ tr,
    w_trace (modify_and_repackage_workbook pl twbx wb find repl w).2
    = w_trace w ++ tr
    ∧ (no_twb_reported tr = true ↔
       ∀ name, name ∈ listdir t → endswith (lower name) ".twb" = false)
    ∧ (∀ file, twb_located tr = [file] ↔
         ∃ before after,
           listdir t = before ++ file :: after
           ∧ endswith (lower file) ".twb" = true
           ∧ ∀ name, name ∈ before → endswith (lower name) ".twb" = false)
    ∧ (no_twb_reported tr = false → ∃ file, twb_located tr = [file]).
Proof.
  intros Ha Hne Hef Hex.
  destruct (modify_locates pl twbx wb find repl w a t Ha Hne Hef Hex)
    as (tr & Htr & Hno & Hloc).
  exists tr. split; [done|]. rewrite Hno, Hloc. unfold find_twb_file.
  split; [|split].
  - etrans; [|apply (find_first_None (λ name, endswith (lower name) ".twb"))].
    by destruct (List.find _ _).
  - intros file.
    etrans; [|apply (find_first_Some (λ name, endswith (lower name) ".twb"))].
    destruct (List.find _ _); simpl; [|done]. split; congruence.
  - destruct (List.find _ _); [eauto|done].
Qed.

Lemma definition_file_is_first_top_level_match_witness :
  ∃ tr, w_trace (transform Windows (FZip twbx)).2 = tr
        ∧ twb_located tr = ["Revenue.twb"].
Proof.
  destruct (definition_file_is_first_top_level_match Windows
              (expected_path Windows "Revenue") "Revenue"
              (url_find cfg) (url_replace cfg)
              (downloaded Windows (FZip twbx)) twbx (extractall twbx []).1)
    as (tr & Htr & _ & Hloc & _).
  - reflexivity.
  - vm_compute. discriminate.
  - left. reflexivity.
  - reflexivity.
  - exists tr. split; [exact Htr|]. apply Hloc.
    exists [], ["Data"]. split; [reflexivity|]. split; [reflexivity|].
    intros name Hname. by apply elem_of_nil in Hname.
Defined.

(** C2, as the specification states it, fails for an archive whose
    definition file is inside a directory: the extracted tree holds
    [Data/Revenue.twb], and the transformer reports that there is no
    definition file. *)
Lemma nested_definition_file_not_located :
  (∃ t, extractall twbx_nested [] = (t, true)
        ∧ is_file_path ["Data"; "Revenue.twb"] t
        ∧ endswith (lower "Revenue.twb") ".twb" = true)
  ∧ (transform Windows (FZip twbx_nested)).1 = Ok None
  ∧ no_twb_reported (w_trace (transform Windows (FZip twbx_nested)).2) = true
  ∧ twb_located (w_trace (transform Windows (FZip twbx_nested)).2) = [].
Proof.
  split; [|by vm_compute].
  eexists. split; [reflexivity|]. split; [|reflexivity].
  eexists. reflexivity.
Qed.

Lemma repackaged_paths_round_trip_witness :
  ∃ out t',
    w_fs (transform Windows (FZip twbx)).2 !! modified_path Windows "Revenue"
    = Some (FZip out)
    ∧ extractall out [] = (t', true)
    ∧ (∀ q, is_file_path q t' ↔ q ∈ twbx.*1)
    ∧ NoDup out.*1.
Proof.
  apply (repackaged_paths_round_trip Windows (expected_path Windows "Revenue")
           "Revenue" (url_find cfg) (url_replace cfg)
           (downloaded Windows (FZip twbx))
           (modified_path Windows "Revenue")
           (transform Windows (FZip twbx)).2 twbx).
  - vm_compute. reflexivity.
  - reflexivity.
Defined.

(** ** The orchestrator *)

Lemma publish_failure_still_cleans_up_witness :
  w_fs unpublished_run.2 !! expected_path Windows "Revenue" = None
  ∧ w_fs unpublished_run.2 !! modified_path Windows "Revenue" = None
  ∧ cleanup_completed (w_trace unpublished_run.2) = true.
Proof.
  apply (publish_failure_still_cleans_up Windows cfg
           (start (serving (FZip twbx)) without_finance)
           unpublished_run.2 (w_trace unpublished_run.2)).
  - vm_compute. reflexivity.
  - reflexivity.
  - vm_compute. reflexivity.
Defined.

(** C1, as the specification states it, fails for the scenario of the
    specification with a destination that has no project "Finance":
    download and transformation succeed, the publisher reports that the
    project is not found, and the two archives are gone after the run. *)
Lemma archives_deleted_after_publish_failure :
  unpublished_run.1 = Ok ()
  ∧ download_succeeded (w_trace unpublished_run.2) = true
  ∧ transform_succeeded (w_trace unpublished_run.2) = true
  ∧ Log (MDestProjectNotFound "Finance") ∈ w_trace unpublished_run.2
  ∧ publish_failed (w_trace unpublished_run.2) = true
  ∧ w_fs unpublished_run.2 !! expected_path Windows "Revenue" = None
  ∧ w_fs unpublished_run.2 !! modified_path Windows "Revenue" = None
  ∧ ¬ archives_remain Windows cfg unpublished_run.2.
Proof.
  split_and!; try (vm_compute; reflexivity).
  - vm_compute. repeat (first [by left | right]).
  - intros [H _]. vm_compute in H. by apply is_Some_None in H.
Qed.

(** C4.  A session that has been opened is not released when a later call
    raises: the orchestrator signs out after the fetcher has returned, and
    nothing catches what the fetcher lets through.  When the listing of
    the projects of the source server raises, the run ends with that
    exception, after one sign-in to the source server and no sign-out. *)
Theorem listing_failure_leaks_source_session pl cfg w src :
  ENVIRONMENTS !! source_env cfg = Some src →
  r_sign_in (w_servers w (server_url src)) = true →
  r_projects_get (w_servers w (server_url src)) = None →
  ∃ w' tr,
    process_workbook_migration pl cfg w = (Raised ServerError, w')
    ∧ w_trace w' = w_trace w ++ tr
    ∧ sign_ins (server_url src) tr = 1
    ∧ sign_outs (server_url src) tr = 0.
Proof.
  intros Henv Hin Hps.
  start_run w.
  unfold process_workbook_migration, ensure_local_directory,
    download_workbook_from_project.
  set (fs := w_fs w). clearbody fs.
  explore.
  all: eexists _, _; (split; [reflexivity|]); (split; [reflexivity|]).
  all: unfold sign_ins, sign_outs; cbn [List.filter List.length app];
    rewrite ?String.eqb_refl; done.
Qed.

Lemma listing_failure_leaks_source_session_witness :
  leaking_run.1 = Raised ServerError
  ∧ sign_ins qa_url (w_trace leaking_run.2) = 1
  ∧ sign_outs qa_url (w_trace leaking_run.2) = 0.
Proof.
  destruct (listing_failure_leaks_source_session Windows cfg
              (start listing_fails without_finance)
              {| server_url := qa_url;
                 token_name := "dev";
                 personal_access_token := "";
                 site_name := "QA" |})
    as (w' & tr & Hrun & Htr & Hins & Houts).
  - reflexivity.
  - reflexivity.
  - reflexivity.
  - unfold leaking_run. rewrite Hrun. simpl. rewrite Htr. simpl. done.
Defined.

(** C5.  In a run in which no check finds the expected file on disk, the
    existence of the file is checked at most 20 times, and neither the
    transformer nor the publisher runs.  When the download has been asked
    for (the project and the workbook are found and the request does not
    raise), the run is exactly: 20 checks, each followed by a sleep of one
    second, the report of the time-out, the sign-out from the source
    server and the report that the process halts. *)
Theorem download_timeout_halts_run pl cfg w r w' tr :
  process_workbook_migration pl cfg w = (r, w') →
  w_trace w' = w_trace w ++ tr →
  seen_on_disk (expected_path pl (workbook_name cfg)) tr = false →
  (polls_of (expected_path pl (workbook_name cfg)) tr ≤ 20
   ∧ transformer_ran tr = false
   ∧ publisher_ran tr = false)
  ∧ ∀ src ps p wbk wbs,
      ENVIRONMENTS !! source_env cfg = Some src →
      r_sign_in (w_servers w (server_url src)) = true →
      r_projects_get (w_servers w (server_url src)) = Some ps →
      List.find (name_matches (requested (source_project_name cfg))) ps = Some p →
      r_workbooks_get (w_servers w (server_url src)) (workbook_name cfg) (proj_name p)
        = Some (wbk :: wbs) →
      r_download (w_servers w (server_url src)) (wb_id wbk) ≠ DlRaises →
      r = (if r_sign_out (w_servers w (server_url src))
           then Ok () else Raised ServerError)
      ∧ tr = timeout_trace pl cfg src p wbk
               (bool_decide (is_Some (w_fs w !! LOCAL_DIRECTORY)))
               (r_sign_out (w_servers w (server_url src)))
      ∧ polls_of (expected_path pl (workbook_name cfg)) tr = 20
      ∧ Log (MDownloadTimedOut (expected_path pl (workbook_name cfg)) 20) ∈ tr.
Proof.
  intros Hrun Htr Hns. split.
  - by apply (process_never_seen pl cfg w r w' tr).
  - intros src ps p wbk wbs Henv Hin Hps Hp Hwb Hdl.
    destruct (process_timeout_exact pl cfg w r w' tr src ps p wbk wbs
                Hrun Htr Hns Henv Hin Hps Hp Hwb Hdl) as [Hr Ht].
    split; [done|]. split; [done|]. rewrite Ht. split.
    + apply polls_of_timeout_trace.
    + unfold timeout_trace. rewrite !elem_of_app. do 4 right. left. by left.
Qed.

Lemma download_timeout_halts_run_witness :
  timed_out_run.1 = Ok ()
  ∧ polls_of (expected_path Windows "Revenue") (w_trace timed_out_run.2) = 20
  ∧ transformer_ran (w_trace timed_out_run.2) = false
  ∧ publisher_ran (w_trace timed_out_run.2) = false
  ∧ Log (MDownloadTimedOut (expected_path Windows "Revenue") 20)
    ∈ w_trace timed_out_run.2.
Proof.
  destruct (download_timeout_halts_run Windows cfg
              (start serving_unpackaged without_finance)
              timed_out_run.1 timed_out_run.2 (w_trace timed_out_run.2))
    as [(_ & Htr & Hpub) Hexact].
  - vm_compute. reflexivity.
  - reflexivity.
  - vm_compute. reflexivity.
  - destruct (Hexact {| server_url := qa_url; token_name := "dev";
                        personal_access_token := ""; site_name := "QA" |}
                [marketing; finance] finance revenue [])
      as (Hr & _ & Hpolls & Hlog); try reflexivity.
    + vm_compute. discriminate.
    + split; [exact Hr|]. split; [exact Hpolls|]. split; [exact Htr|].
      split; [exact Hpub|exact Hlog].
Defined.

(* ================================================================== *)
(** * Further properties of the script *)
(* ================================================================== *)

Import Reading Trial.

(** ** Downloads under way *)

Lemma land_lookup_other now arr fs q :
  q ∉ arr.*1.*2 → (land now arr fs).1 !! q = fs !! q.
Proof.
  revert fs. induction arr as [|[[due p] f] arr IH]; intros fs Hq; [done|].
  simpl in *. apply not_elem_of_cons in Hq as [Hne Hq].
  destruct (Nat.leb due now).
  - rewrite IH by done. by rewrite lookup_insert_ne.
  - specialize (IH fs Hq). by destruct (land now arr fs).
Qed.

Lemma land_pending now arr fs :
  (land now arr fs).2.*1.*2 ⊆ arr.*1.*2.
Proof.
  revert fs. induction arr as [|[[due p] f] arr IH]; intros fs; [done|].
  simpl. destruct (Nat.leb due now).
  - intros q Hq. right. by apply (IH (<[p:=f]> fs)).
  - specialize (IH fs). destruct (land now arr fs) as [fs' rest]. simpl in *.
    intros q [->|Hq]%elem_of_cons; [by left|right; auto].
Qed.

Lemma settle_fs clock arr w :
  w_fs (settle clock arr w) = (land clock arr (w_fs w)).1.
Proof. unfold settle. by destruct (land _ _ _). Qed.

Lemma settle_arrivals clock arr w :
  w_arrivals (settle clock arr w) = (land clock arr (w_fs w)).2.
Proof. unfold settle. by destruct (land _ _ _). Qed.

Lemma settle_clock clock arr w : w_clock (settle clock arr w) = clock.
Proof. unfold settle. by destruct (land _ _ _). Qed.

(** ** The wait loop of the fetcher *)

Section waiting.
Context (p : string).

Local Abbreviation wait_loop from n :=
(for_each (seq from n) (λ i,
   exists_ ← os_path_exists p;
   if exists_ : bool
   then log_message (MDownloadPresent (i + 1));; mret (Some p)
   else time_sleep 1;; mret None)).

Lemma wait_loop_present i n w :
is_Some (w_fs w !! p) →
wait_loop i (S n) w
= (Ok (Some p), emit (Log (MDownloadPresent (i + 1))) (emit (PathExists p true) w)).
Proof.
intros Hp. cbn [seq for_each]. rewrite bind_run. cbn beta. rewrite bind_run.
unfold os_path_exists at 1. run_unfold. cbn.
by rewrite bool_decide_eq_true_2.
Qed.

Lemma wait_loop_miss i n w :
w_fs w !! p = None →
wait_loop i (S n) w
= wait_loop (S i) n
    (settle (w_clock w + 1) (w_arrivals w)
       (emit (Sleep 1) (emit (PathExists p false) w))).
Proof.
intros Hp. cbn [seq for_each]. rewrite bind_run. cbn beta. rewrite bind_run.
unfold os_path_exists at 1. run_unfold. cbn.
rewrite bool_decide_eq_false_2 by (rewrite Hp; apply is_Some_None).
reflexivity.
Qed.

(** What the loop does to the disk. *)
Lemma wait_loop_disk n i w :
∃ r w',
  wait_loop i n w = (Ok r, w')
  ∧ (∀ d, r = Some d → d = p ∧ is_Some (w_fs w' !! p))
  ∧ (∀ q, q ∉ (w_arrivals w).*1.*2 → w_fs w' !! q = w_fs w !! q)
  ∧ (w_arrivals w').*1.*2 ⊆ (w_arrivals w).*1.*2.
Proof.
revert i w. induction n as [|n IH]; intros i w.
- exists None, w. by split_and!.
- destruct (w_fs w !! p) as [x|] eqn:Hp.
  + rewrite wait_loop_present by (by rewrite Hp).
    eexists _, _. split; [reflexivity|]. cbn. split_and!; try done.
    intros d [= <-]. by rewrite Hp.
  + rewrite wait_loop_miss by done.
    set (w1 := settle _ _ _).
    destruct (IH (S i) w1) as (r & w' & Hrun & Hr & Hframe & Hpend).
    exists r, w'. split; [done|]. split; [done|].
    assert ((w_arrivals w1).*1.*2 ⊆ (w_arrivals w).*1.*2) as Hsub.
    { unfold w1. rewrite settle_arrivals. cbn. apply land_pending. }
    split.
    * intros q Hq. rewrite Hframe by (intros ?; apply Hq; by apply Hsub).
      unfold w1. rewrite settle_fs. cbn. by apply land_lookup_other.
    * by etrans.
Qed.

(** The loop while one download is under way: [k] seconds from now the
  file will be at [p]. *)
Lemma wait_loop_arrival f n i k w :
w_arrivals w = [(w_clock w + k, p, f)] →
w_fs w !! p = None →
0 < k →
wait_loop i n w
= if decide (k < n)
  then (Ok (Some p),
        {| w_servers := w_servers w;
           w_fs := <[p := f]> (w_fs w);
           w_clock := w_clock w + k;
           w_arrivals := [];
           w_trace := w_trace w ++ List.concat (replicate k (poll_miss p))
                      ++ [PathExists p true; Log (MDownloadPresent (i + k + 1))] |})
  else (Ok None,
        {| w_servers := w_servers w;
           w_fs := if decide (k = n) then <[p := f]> (w_fs w) else w_fs w;
           w_clock := w_clock w + n;
           w_arrivals := if decide (k = n) then [] else [(w_clock w + k, p, f)];
           w_trace := w_trace w ++ List.concat (replicate n (poll_miss p)) |}).
Proof.
revert i k w. induction n as [|n IH]; intros i k w Harr Hp Hk.
- repeat case_decide; try lia.
  cbn. destruct w; cbn in *. rewrite app_nil_r, Nat.add_0_r. by subst.
- rewrite wait_loop_miss by done. rewrite Harr.
  unfold settle. cbn [land w_fs emit].
  destruct (Nat.leb_spec (w_clock w + k) (w_clock w + 1)) as [Hle|Hgt].
  + assert (k = 1) as -> by lia.
    destruct n as [|n].
    * repeat case_decide; try lia.
      cbn. rewrite <- !app_assoc. done.
    * rewrite wait_loop_present by (cbn; by rewrite lookup_insert_eq).
      repeat case_decide; try lia. cbn.
      unfold emit. cbn. rewrite <- !app_assoc. cbn.
      replace (S (i + 1)) with (i + 1 + 1) by lia. done.
  + destruct k as [|k]; [lia|].
    rewrite (IH (S i) k); cbn; [|f_equal; f_equal; f_equal; lia|done|lia].
    assert (S (i + k + 1) = i + S k + 1) as Hi by lia. rewrite ?Hi.
    replace (w_clock w + 1 + k) with (w_clock w + S k) by lia.
    replace (w_clock w + 1 + n) with (w_clock w + S n) by lia.
    repeat case_decide; try lia; rewrite <- ?app_assoc; reflexivity.
Qed.

End waiting.

(** ** The fetcher, case by case *)

Section fetcher_cases.
Context (pl : platform).

Local Abbreviation wait_for path :=
(for_each (seq 0 20) (λ i,
   exists_ ← os_path_exists path;
   if exists_ : bool
   then log_message (MDownloadPresent (i + 1));; mret (Some path%string)
   else time_sleep 1;; mret None)).

(** What the fetcher returns for what the wait loop returns. *)
Local Abbreviation waited wb x :=
(match x with
 | (Ok (Some q), w2) => (Ok (Some q), w2)
 | (Ok None, w2) =>
     (Ok None, emit (Log (MDownloadTimedOut (expected_path pl wb) 20)) w2)
 | (Raised e, w2) => (Ok None, emit (Log (MDownloadException e)) w2)
 end).

Lemma download_cases server wb proj w :
download_workbook_from_project pl server wb proj w
= let w0 := emit (Log (MAttemptDownload wb proj)) w in
  match r_projects_get (w_servers w server) with
  | None => (Raised ServerError, w0)
  | Some ps =>
      match List.find (name_matches (requested proj)) ps with
      | None => (Ok None, emit (Log (MSourceProjectNotFound proj)) w0)
      | Some p =>
          let w1 := emit (Log (MFoundProject (proj_name p) (proj_id p))) w0 in
          match r_workbooks_get (w_servers w server) wb (proj_name p) with
          | None => (Raised ServerError, w1)
          | Some [] =>
              (Ok None, emit (Log (MWorkbookNotFound wb (proj_name p))) w1)
          | Some (wbk :: _) =>
              let w2 :=
                emit (Log (MDownloading (wb_id wbk)
                        (os_path_join pl LOCAL_DIRECTORY ("source_" +:+ wb)))) w1 in
              match r_download (w_servers w server) (wb_id wbk) with
              | DlRaises =>
                  (Ok None, emit (Log (MDownloadException ServerError)) w2)
              | DlArrives delay f =>
                  waited wb
                    (wait_for (expected_path pl wb)
                       (settle (w_clock w)
                          (w_arrivals w
                           ++ [(w_clock w + delay, expected_path pl wb, f)]) w2))
              | DlElsewhere => waited wb (wait_for (expected_path pl wb) w2)
              end
          end
      end
  end.
Proof.
unfold download_workbook_from_project.
rewrite bind_run. cbn [log_message record].
rewrite bind_run. cbv zeta.
destruct (r_projects_get (w_servers w server)) as [ps|] eqn:Hps.
2:{ by rewrite find_project_by_name_raises. }
rewrite (find_project_by_name_run _ _ _ ps) by done.
destruct (List.find _ ps) as [p|] eqn:Hfind; cbn [found_project]; [|done].
rewrite bind_run. unfold workbooks_get at 1. rewrite bind_run. cbn [get_world].
cbn [w_servers emit].
destruct (r_workbooks_get _ _ _) as [[|wbk wbs]|] eqn:Hwbs;
  cbn [mret M_ret mthrow M_throw]; [done| |done].
rewrite bind_run. unfold attempt at 1.
rewrite bind_run. cbn [log_message record].
rewrite bind_run. unfold workbooks_download at 1. rewrite bind_run. cbn [get_world].
cbn [w_servers emit].
fold (expected_path pl wb).
destruct (r_download _ _) as [|delay f|] eqn:Hdl; cbn [mret M_ret mthrow M_throw].
- done.
- unfold schedule at 1. cbv beta iota. rewrite bind_run.
  cbn [w_clock w_arrivals emit].
  match goal with |- context [for_each ?l ?b ?x] =>
    destruct (for_each l b x) as [[[q|]|e] w3] end; done.
- rewrite bind_run. cbn [emit].
  match goal with |- context [for_each ?l ?b ?x] =>
    destruct (for_each l b x) as [[[q|]|e] w3] end; done.
Qed.

(** The events of the fetcher up to the request of the download. *)
Local Abbreviation request_events wb proj p wbk :=
[Log (MAttemptDownload wb proj);
 Log (MFoundProject (proj_name p) (proj_id p));
 Log (MDownloading (wb_id wbk)
        (os_path_join pl LOCAL_DIRECTORY ("source_" +:+ wb)))].

Lemma download_arrival server wb proj w ps p wbk wbs d f :
r_projects_get (w_servers w server) = Some ps →
List.find (name_matches (requested proj)) ps = Some p →
r_workbooks_get (w_servers w server) wb (proj_name p) = Some (wbk :: wbs) →
r_download (w_servers w server) (wb_id wbk) = DlArrives d f →
w_arrivals w = [] →
w_fs w !! expected_path pl wb = None →
download_workbook_from_project pl server wb proj w
= if decide (d < 20)
  then (Ok (Some (expected_path pl wb)),
        {| w_servers := w_servers w;
           w_fs := <[expected_path pl wb := f]> (w_fs w);
           w_clock := w_clock w + d;
           w_arrivals := [];
           w_trace := w_trace w ++ request_events wb proj p wbk
                      ++ List.concat (replicate d (poll_miss (expected_path pl wb)))
                      ++ [PathExists (expected_path pl wb) true;
                          Log (MDownloadPresent (d + 1))] |})
  else (Ok None,
        {| w_servers := w_servers w;
           w_fs := if decide (d = 20)
                   then <[expected_path pl wb := f]> (w_fs w) else w_fs w;
           w_clock := w_clock w + 20;
           w_arrivals := if decide (d = 20) then []
                         else [(w_clock w + d, expected_path pl wb, f)];
           w_trace := w_trace w ++ request_events wb proj p wbk
                      ++ List.concat (replicate 20 (poll_miss (expected_path pl wb)))
                      ++ [Log (MDownloadTimedOut (expected_path pl wb) 20)] |}).
Proof.
intros Hps Hfind Hwbs Hdl Harr Hfs.
rewrite download_cases, Hps, Hfind, Hwbs, Hdl. cbv zeta.
rewrite Harr. unfold settle. cbn [app land w_fs emit].
destruct d as [|d].
- rewrite (proj2 (Nat.leb_le _ _)) by lia.
  rewrite wait_loop_present by (cbn; by rewrite lookup_insert_eq).
  rewrite decide_True by lia. unfold emit. cbn.
  rewrite Nat.add_0_r, <- !app_assoc. done.
- rewrite (proj2 (Nat.leb_gt _ _)) by lia.
  rewrite (wait_loop_arrival _ f 20 0 (S d)) by (cbn; done || lia).
  unfold emit. cbn [w_servers w_fs w_clock w_arrivals w_trace].
  rewrite <- !app_assoc.
  destruct (decide (S d < 20)); [done|].
  cbn [w_servers w_fs w_clock w_arrivals w_trace]. by rewrite <- !app_assoc.
Qed.





End fetcher_cases.

(** ** The transformer and the publisher on any disk *)

Lemma with_fs_start w fs : with_fs fs w = after w fs [].
Proof. unfold with_fs, after. by rewrite app_nil_r. Qed.

Section transformer_frame.
Context (pl : platform).



End transformer_frame.

(** ** The publisher *)

Lemma published_app tr1 tr2 :
  published (tr1 ++ tr2) = published tr1 || published tr2.
Proof. apply existsb_app. Qed.


(** ** The events of the stages *)

Lemma download_succeeded_app tr1 tr2 :
  download_succeeded (tr1 ++ tr2) = download_succeeded tr1 || download_succeeded tr2.
Proof. apply existsb_app. Qed.

Lemma transform_succeeded_app tr1 tr2 :
  transform_succeeded (tr1 ++ tr2)
  = transform_succeeded tr1 || transform_succeeded tr2.
Proof. apply existsb_app. Qed.

Lemma cleanup_started_app tr1 tr2 :
  cleanup_started (tr1 ++ tr2) = cleanup_started tr1 || cleanup_started tr2.
Proof. apply existsb_app. Qed.

Lemma sign_ins_app url tr1 tr2 :
  sign_ins url (tr1 ++ tr2) = sign_ins url tr1 + sign_ins url tr2.
Proof. unfold sign_ins. by rewrite List.filter_app, length_app. Qed.

Lemma sign_outs_app url tr1 tr2 :
  sign_outs url (tr1 ++ tr2) = sign_outs url tr1 + sign_outs url tr2.
Proof. unfold sign_outs. by rewrite List.filter_app, length_app. Qed.

Lemma offline_app tr1 tr2 : offline tr1 → offline tr2 → offline (tr1 ++ tr2).
Proof. apply Forall_app_2. Qed.

Lemma offline_sign_ins url tr : offline tr → sign_ins url tr = 0.
Proof.
  induction 1 as [|e tr He _ IH]; [done|].
  unfold sign_ins in *. cbn. by destruct e.
Qed.

Lemma offline_sign_outs url tr : offline tr → sign_outs url tr = 0.
Proof.
  induction 1 as [|e tr He _ IH]; [done|].
  unfold sign_outs in *. cbn. by destruct e.
Qed.

(** The stages before the transformer: nothing of a session, nothing of a
    later stage. *)
Local Abbreviation early tr :=
  (offline tr ∧ cleanup_started tr = false ∧ transform_succeeded tr = false).

Lemma early_app tr1 tr2 : early tr1 → early tr2 → early (tr1 ++ tr2).
Proof.
  intros (? & H1 & H2) (? & H3 & H4).
  rewrite cleanup_started_app, transform_succeeded_app, H1, H2, H3, H4.
  split; [by apply offline_app|done].
Qed.

Lemma wait_loop_events p n i w :
  ∃ r w' tr,
    for_each (seq i n) (λ i,
      exists_ ← os_path_exists p;
      if exists_ : bool
      then log_message (MDownloadPresent (i + 1));; mret (Some p)
      else time_sleep 1;; mret None) w
    = (Ok r, w')
    ∧ w_trace w' = w_trace w ++ tr
    ∧ early tr
    ∧ download_succeeded tr = match r with Some _ => true | None => false end.
Proof.
  revert i w. induction n as [|n IH]; intros i w.
  - exists None, w, []. rewrite app_nil_r. split_and!; try done. constructor.
  - destruct (w_fs w !! p) as [x|] eqn:Hp.
    + rewrite wait_loop_present by (by rewrite Hp).
      eexists _, _, _. split; [reflexivity|]. cbn. rewrite <- app_assoc.
      split; [reflexivity|]. split_and!; try done. by repeat constructor.
    + rewrite wait_loop_miss by done.
      set (w1 := settle _ _ _).
      destruct (IH (S i) w1) as (r & w' & tr & Hrun & Htr & Hearly & Hd).
      exists r, w', ([PathExists p false; Sleep 1] ++ tr).
      split; [done|]. split.
      { rewrite Htr. unfold w1. rewrite settle_trace. cbn. by rewrite <- !app_assoc. }
      split.
      * apply early_app; [|done]. split_and!; try done. by repeat constructor.
      * by rewrite download_succeeded_app, Hd.
Qed.

Section stages.
Context (pl : platform).

(** The events of the fetcher. *)
Lemma download_events server wb proj w r w' :
download_workbook_from_project pl server wb proj w = (r, w') →
∃ tr,
  w_trace w' = w_trace w ++ tr
  ∧ early tr
  ∧ download_succeeded tr
    = match r with Ok (Some _) => true | _ => false end.
Proof.
rewrite download_cases. cbv zeta.
destruct (r_projects_get _) as [ps|].
2:{ intros [= <- <-]. eexists. split; [reflexivity|].
    split_and!; try done. by repeat constructor. }
destruct (List.find _ ps) as [p|].
2:{ intros [= <- <-]. eexists. cbn. rewrite <- app_assoc.
    split; [reflexivity|]. split_and!; try done. by repeat constructor. }
destruct (r_workbooks_get _ _ _) as [[|wbk wbs]|].
3:{ intros [= <- <-]. eexists. cbn. rewrite <- app_assoc.
    split; [reflexivity|]. split_and!; try done. by repeat constructor. }
1:{ intros [= <- <-]. eexists. cbn. rewrite <- !app_assoc.
    split; [reflexivity|]. split_and!; try done. by repeat constructor. }
assert (∀ w2 tr2, w_trace w2 = w_trace w ++ tr2 → early tr2 →
                  download_succeeded tr2 = false →
  (match
     for_each (seq 0 20) (λ i,
       exists_ ← os_path_exists (expected_path pl wb);
       if exists_ : bool
       then log_message (MDownloadPresent (i + 1));;
            mret (Some (expected_path pl wb))
       else time_sleep 1;; mret None) w2
   with
   | (Ok (Some q), w3) => (Ok (Some q), w3)
   | (Ok None, w3) =>
       (Ok None, emit (Log (MDownloadTimedOut (expected_path pl wb) 20)) w3)
   | (Raised e, w3) => (Ok None, emit (Log (MDownloadException e)) w3)
   end) = (r, w') →
  ∃ tr,
    w_trace w' = w_trace w ++ tr
    ∧ early tr
    ∧ download_succeeded tr
      = match r with Ok (Some _) => true | _ => false end) as Hloop.
{ intros w2 tr2 Htr2 Hearly2 Hd2.
  destruct (wait_loop_events (expected_path pl wb) 20 0 w2)
    as (r0 & w3 & tr & -> & Htr & Hearly & Hd).
  destruct r0 as [q|]; intros [= <- <-].
  - exists (tr2 ++ tr). rewrite Htr, Htr2, <- app_assoc.
    split; [done|]. split; [by apply early_app|].
    by rewrite download_succeeded_app, Hd, orb_true_r.
  - exists (tr2 ++ tr ++ [Log (MDownloadTimedOut (expected_path pl wb) 20)]).
    cbn. rewrite Htr, Htr2, <- !app_assoc. split; [done|]. split.
    + apply early_app; [done|]. apply early_app; [done|].
      split_and!; try done. by repeat constructor.
    + by rewrite !download_succeeded_app, Hd, Hd2. }
destruct (r_download _ _) as [|delay f|].
- intros [= <- <-]. eexists. cbn. rewrite <- !app_assoc.
  split; [reflexivity|]. split_and!; try done. by repeat constructor.
- apply Hloop with (tr2 := [Log (MAttemptDownload wb proj);
                             Log (MFoundProject (proj_name p) (proj_id p));
                             Log (MDownloading (wb_id wbk)
                                    (os_path_join pl LOCAL_DIRECTORY
                                       ("source_" +:+ wb)))]).
  + rewrite settle_trace. cbn. by rewrite <- !app_assoc.
  + split_and!; try done. by repeat constructor.
  + done.
- apply Hloop with (tr2 := [Log (MAttemptDownload wb proj);
                             Log (MFoundProject (proj_name p) (proj_id p));
                             Log (MDownloading (wb_id wbk)
                                    (os_path_join pl LOCAL_DIRECTORY
                                       ("source_" +:+ wb)))]).
  + cbn. by rewrite <- !app_assoc.
  + split_and!; try done. by repeat constructor.
  + done.
Qed.

(** The events of the transformer. *)
Lemma modify_events twbx wb find repl w r w' :
modify_and_repackage_workbook pl twbx wb find repl w = (r, w') →
∃ tr,
  w_trace w' = w_trace w ++ tr
  ∧ offline tr
  ∧ cleanup_started tr = false
  ∧ download_succeeded tr = false
  ∧ publisher_ran tr = false
  ∧ publish_failed tr = false
  ∧ transformer_ran tr = true
  ∧ transform_succeeded tr
    = match r with Ok (Some _) => true | _ => false end.
Proof.
start_run w.
unfold modify_and_repackage_workbook.
fold (extract_folder pl wb). fold (modified_path pl wb).
set (ef := extract_folder pl wb) in *. set (mp := modified_path pl wb).
set (fs := w_fs w) in *. clearbody ef mp fs.
explore.
all: intros [= <- <-]; eexists; (split; [reflexivity|]).
all: split_and!; try done; by repeat constructor.
Qed.

(** ** The orchestrator, stage by stage *)

(** Bring [Htr : w_trace w' = w_trace w ++ tr] to an equation for [tr]
  and put it in. *)
Ltac read_trace Htr :=
repeat match goal with
       | H : w_trace ?x = _ |- _ => rewrite trace_after in H
       end;
rewrite ?trace_after in Htr;
repeat match goal with
       | H : w_trace ?x = _ |- _ =>
           tryif constr_eq H Htr then fail else rewrite H in Htr
       end;
rewrite <- ?app_assoc in Htr; apply app_inv_head in Htr; subst.

(** The readings of a trace that is given piece by piece. *)
Ltac read_stages :=
rewrite ?transformer_ran_app, ?publisher_ran_app, ?download_succeeded_app,
  ?transform_succeeded_app, ?cleanup_started_app, ?sign_ins_app, ?sign_outs_app;
repeat match goal with
       | H : quiet _ |- _ => destruct H as (_ & ? & ?)
       | H : offline _ ∧ _ ∧ _ |- _ => destruct H as (? & ? & ?)
       end;
repeat match goal with
       | H : offline ?t |- _ =>
           rewrite ?(offline_sign_ins _ t H), ?(offline_sign_outs _ t H); clear H
       | H : transformer_ran ?t = _ |- _ => rewrite ?H; clear H
       | H : publisher_ran ?t = _ |- _ => rewrite ?H; clear H
       | H : download_succeeded ?t = _ |- _ => rewrite ?H; clear H
       | H : transform_succeeded ?t = _ |- _ => rewrite ?H; clear H
       | H : cleanup_started ?t = _ |- _ => rewrite ?H; clear H
       end;
unfold sign_ins, sign_outs;
cbn [transformer_ran publisher_ran download_succeeded transform_succeeded
     cleanup_started existsb orb List.filter List.length Nat.add].

(** The run has ended: what its trace shows. *)
Ltac summed :=
let Htr := fresh "Htr" in
let url := fresh "url" in
intros [= <- <-] Htr; read_trace Htr;
split_and!;
try (read_stages; done);
first [intros _ url | intros url];
read_stages;
repeat match goal with
       | |- context [String.eqb ?a url] => destruct (String.eqb a url)
       end;
cbn [List.filter List.length Nat.add]; lia.

(** The events of the clean-up, which never raises. *)
Lemma cleanup_events dp mp w r w' :
(r ← attempt (
   exists_ ← os_path_exists dp;
   (if exists_ : bool then os_remove dp else mret ());;
   exists_ ← os_path_exists mp;
   (if exists_ : bool then os_remove mp else mret ());;
   log_message MCleanupComplete);
 (match r with
  | Ok _ => mret ()
  | Raised e => log_message (MCleanupWarning e)
  end);;
 log_message MFinished) w = (r, w') →
r = Ok ()
∧ ∃ tr,
    w_trace w' = w_trace w ++ tr
    ∧ offline tr
    ∧ cleanup_started tr = false
    ∧ download_succeeded tr = false
    ∧ transform_succeeded tr = false
    ∧ transformer_ran tr = false
    ∧ publisher_ran tr = false.
Proof.
start_run w. set (fs := w_fs w). clearbody fs.
explore.
all: intros [= <- <-]; split; [done|]; eexists; (split; [reflexivity|]).
all: split_and!; try done; by repeat constructor.
Qed.

Lemma process_summary cfg w r w' tr :
process_workbook_migration pl cfg w = (r, w') →
w_trace w' = w_trace w ++ tr →
(transformer_ran tr = true → download_succeeded tr = true)
∧ (publisher_ran tr = true → transform_succeeded tr = true)
∧ (cleanup_started tr = true → publisher_ran tr = true)
∧ (∀ url, sign_outs url tr ≤ sign_ins url tr ≤ 2)
∧ (r = Ok () → ∀ url, sign_outs url tr = sign_ins url tr).
Proof.
start_run w.
unfold process_workbook_migration, ensure_local_directory.
remember (log_message MCleaningUp) as stop eqn:Hstop.
set (fs := w_fs w). clearbody fs.
explore.
all: try (match goal with |- (_, _) = (_, _) → _ => summed end).
all: match goal with
     | |- context [download_workbook_from_project ?a ?b ?c ?d ?w0] =>
         destruct (download_workbook_from_project a b c d w0) as [r1 w1] eqn:Hdl;
         pose proof Hdl as Hdl2;
         apply download_trace in Hdl as (Hsrv1 & tr1 & Htr1 & Hq1 & _ & Hd & _);
         apply download_events in Hdl2 as (tr1' & Htr1' & Hearly1 & Hds1);
         rewrite Htr1 in Htr1'; apply app_inv_head in Htr1'; subst tr1'
     end.
all: destruct r1 as [[d|]|]; [destruct (Hd _ eq_refl) as [-> _]| |]; clear Hd.
all: try (set (dp := expected_path pl (workbook_name cfg)) in *; clearbody dp).
all: try (match goal with |- (_, _) = (_, _) → _ => summed end).
all: start_run w1; explore.
all: try (match goal with |- (_, _) = (_, _) → _ => summed end).
all: match goal with
     | |- context [modify_and_repackage_workbook ?a ?b ?c ?d ?e ?w0] =>
         destruct (modify_and_repackage_workbook a b c d e w0) as [r2 w2] eqn:Hmod;
         apply modify_events in Hmod
           as (tr2 & Htr2 & Hoff2 & Hcl2 & Hds2 & Hpr2 & _ & Htr2' & Hts2)
     end.
all: destruct r2 as [[m|]|].
all: try (match goal with |- (_, _) = (_, _) → _ => summed end).
all: start_run w2; unfold publish_modified_workbook;
     set (fs2 := w_fs w2); clearbody fs2; explore.
all: try (match goal with |- (_, _) = (_, _) → _ => summed end).
all: subst stop; rewrite log_message_run; cbv beta iota.
all: match goal with
     | |- ?K ?s = _ → _ =>
         destruct (K s) as [r3 w3] eqn:Hk;
         apply cleanup_events in Hk
           as (-> & tr3 & Htr3 & Hoff3 & Hcl3 & Hds3 & Hts3 & Htr3' & Hpr3)
     end.
all: summed.
Qed.



End stages.

(** ** The further properties on concrete runs *)









